(** * Skin tone service: a shallow embedding of [app/services/skin_tone.py]
    and of its page, [app/main.py]

    The three operations of the service ([detect_skin_tone],
    [get_color_recommendations], [adjust_skin_tone]) are transcribed below.

    - numpy [float64] samples are Rocq's primitive binary64 floats, and the
      comparisons, additions and multiplications of the source are the
      IEEE 754 operations of [PrimFloat];
    - an [ndarray] of shape height x width x 3 is its C-ordered buffer of
      pixels together with its two leading dimensions;
    - arrays live in a store and are handled through references, so that
      [lab_image.copy()], the in-place masked assignments and the
      [return image] of the error path keep their aliasing;
    - [raise] / [try ... except Exception] is an error monad over that store,
      [print] appends to a captured standard output;
    - the dictionaries are [gmap string _];
    - [skimage.color.rgb2lab], [skimage.color.lab2rgb] and [numpy.mean] are
      library routines outside the repository: they are section variables. *)

From Stdlib Require Import Floats ZArith.
From stdpp Require Import base strings gmap list.

Local Open Scope string_scope.

(** ** Pixels, grids and arrays *)

Inductive channel := C0 | C1 | C2.

Definition px (A : Type) : Type := (A * A * A)%type.

Definition sample {A} (c : channel) (p : px A) : A :=
  match c, p with
  | C0, (x, _, _) => x
  | C1, (_, y, _) => y
  | C2, (_, _, z) => z
  end.

Definition set_sample {A} (c : channel) (v : A) (p : px A) : px A :=
  match c, p with
  | C0, (_, y, z) => (v, y, z)
  | C1, (x, _, z) => (x, v, z)
  | C2, (x, y, _) => (x, y, v)
  end.

(** A height x width x 3 array: [pixels] is the row-major buffer, so the
    pixel at row [i], column [j] is entry [i * width + j]. *)
Record grid (A : Type) := Grid {
  height : nat;
  width : nat;
  pixels : list (px A)
}.
Arguments Grid {A} _ _ _.
Arguments height {A} _.
Arguments width {A} _.
Arguments pixels {A} _.

(** The two dtypes the service meets: [uint8] rasters and [float64] images. *)
Inductive ndarray :=
| U8 (im : grid Z)
| F64 (im : grid float).

(** ** numpy primitives *)

Module Np.

(** [x >= y] on float64 (false as soon as one side is NaN). *)
Definition geb (x y : float) : bool := PrimFloat.leb y x.

(** Python [int] to [float64], exact below 2^53. *)
Definition float_of_Z (z : Z) : float :=
  match z with
  | Z0 => PrimFloat.of_uint63 (Uint63.of_Z 0)
  | Zpos _ => PrimFloat.of_uint63 (Uint63.of_Z z)
  | Zneg _ => PrimFloat.opp (PrimFloat.of_uint63 (Uint63.of_Z (- z)))
  end.

(** The view [arr[:,:,c]], as the flat sequence of its samples. *)
Definition chan {A} (c : channel) (im : grid A) : list A :=
  map (sample c) (pixels im).

(** [np.sum(mask)] on a boolean array: the number of true entries. *)
Fixpoint sum (mask : list bool) : Z :=
  match mask with
  | [] => 0
  | m :: mask' => (if m then 1 else 0) + sum mask'
  end.

(** Boolean indexing [values[mask]]: the selected samples, in C order.
    The masks of the service are always computed from the array they
    index, so the two always have the same length. *)
Fixpoint bool_index {A} (values : list A) (mask : list bool) : list A :=
  match values, mask with
  | v :: values', m :: mask' =>
      if m then v :: bool_index values' mask' else bool_index values' mask'
  | _, _ => []
  end.

(** Masked assignment [arr[:,:,c][mask] = values], on the buffer.
    numpy raises when the mask does not have the shape of the view or when
    the number of values is not the number of true entries: [None]. *)
Fixpoint masked_assign {A} (c : channel) (buf : list (px A))
         (mask : list bool) (values : list A) : option (list (px A)) :=
  match buf, mask with
  | [], [] => match values with [] => Some [] | _ :: _ => None end
  | p :: buf', m :: mask' =>
      if m then
        match values with
        | v :: values' =>
            option_map (cons (set_sample c v p))
                       (masked_assign c buf' mask' values')
        | [] => None
        end
      else option_map (cons p) (masked_assign c buf' mask' values)
  | _, _ => None
  end.

(** What a masked assignment does to one pixel: the sample of channel [c]
    is replaced where the mask is true. *)
Definition update_where {A} (c : channel) (f : A -> A) (p : px A)
           (m : bool) : px A :=
  if m then set_sample c (f (sample c p)) p else p.

(** The scalar loop of [np.clip] on floats: [min (max x lo) hi], where a
    NaN in [x] is propagated and a tie takes the bound. *)
Definition maximum (x y : float) : float :=
  if PrimFloat.is_nan x then x else if PrimFloat.ltb y x then x else y.
Definition minimum (x y : float) : float :=
  if PrimFloat.is_nan x then x else if PrimFloat.ltb x y then x else y.
Definition clip (x lo hi : float) : float := minimum (maximum x lo) hi.

(** Truncation toward zero of a float64 (0 on NaN and infinities, which
    [clip] to a finite interval lets through only for NaN). *)
Definition trunc (x : float) : Z :=
  match Prim2SF x with
  | S754_finite s m e =>
      let v := (if 0 <=? e then Z.pos m * 2 ^ e else Z.pos m / 2 ^ (- e))%Z in
      if s then (- v)%Z else v
  | _ => 0%Z
  end.

(** [.astype(np.uint8)] on one sample. *)
Definition astype_uint8 (x : float) : Z := (trunc x mod 256)%Z.

End Np.

(** ** The store, exceptions and standard output *)

Definition ref := nat.
Definition exn := string.

Record world := World {
  heap : list ndarray;
  stdout : list string
}.

Inductive outcome (A : Type) :=
| Returned (v : A)
| Raised (e : exn).
Arguments Returned {A} _.
Arguments Raised {A} _.

Definition M (A : Type) : Type := world -> outcome A * world.

Definition ret {A} (v : A) : M A := fun w => (Returned v, w).

Definition bind {A B} (m : M A) (k : A -> M B) : M B :=
  fun w =>
    match m w with
    | (Returned v, w') => k v w'
    | (Raised e, w') => (Raised e, w')
    end.

Definition raise {A} (e : exn) : M A := fun w => (Raised e, w).

(** [try: body  except Exception as e: handler e]. *)
Definition try_except {A} (body : M A) (handler : exn -> M A) : M A :=
  fun w =>
    match body w with
    | (Returned v, w') => (Returned v, w')
    | (Raised e, w') => handler e w'
    end.

Declare Scope py_scope.
Delimit Scope py_scope with py.
Notation "x <- m ;; k" := (bind m (fun x => k))
  (at level 100, m at next level, right associativity) : py_scope.
Notation "m ;;; k" := (bind m (fun _ => k))
  (at level 100, right associativity) : py_scope.
Local Open Scope py_scope.

(** A new array object: its reference is the next free cell. *)
Definition alloc (v : ndarray) : M ref :=
  fun w => (Returned (length (heap w)),
            World (heap w ++ [v]) (stdout w)).

(** Dereferencing.  Names of a running program always denote live objects;
    the [Raised] branches keep the operations total on every store. *)
Definition load (r : ref) : M ndarray :=
  fun w =>
    match heap w !! r with
    | Some v => (Returned v, w)
    | None => (Raised "invalid reference", w)
    end.

Definition load_f64 (r : ref) : M (grid float) :=
  v <- load r ;;
  match v with
  | F64 im => ret im
  | U8 _ => raise "float64 array expected"
  end.

(** In-place update of the object behind [r]. *)
Definition store (r : ref) (v : ndarray) : M unit :=
  fun w =>
    match heap w !! r with
    | Some _ => (Returned tt, World (<[r := v]> (heap w)) (stdout w))
    | None => (Raised "invalid reference", w)
    end.

Definition print (line : string) : M unit :=
  fun w => (Returned tt, World (heap w) (stdout w ++ [line])).

Definition lift {A} (r : exn + A) : M A :=
  match r with
  | inl e => raise e
  | inr v => ret v
  end.

(** A library conversion applied to the array behind [r]: it reads its
    argument, may raise, and returns a fresh float64 array. *)
Definition call (f : ndarray -> exn + grid float) (r : ref) : M ref :=
  arr <- load r ;;
  res <- lift (f arr) ;;
  alloc (F64 res).

(** [arr.copy()]. *)
Definition copy (r : ref) : M ref :=
  arr <- load r ;;
  alloc arr.

(** [arr[:,:,c][mask] = f(arr[:,:,c][mask])]: the right-hand side is
    gathered from the array, then written back through the view. *)
Definition masked_update (r : ref) (c : channel) (mask : list bool)
           (f : float -> float) : M unit :=
  arr <- load_f64 r ;;
  let rhs := map f (Np.bool_index (Np.chan c arr) mask) in
  match Np.masked_assign c (pixels arr) mask rhs with
  | Some buf => store r (F64 (Grid (height arr) (width arr) buf))
  | None => raise "shape mismatch"
  end.

(** Python dictionaries: [key in d], [d[key]] and [d.get(key, dflt)]. *)
Definition contains {V} (d : gmap string V) (key : string) : bool :=
  bool_decide (is_Some (d !! key)).

Definition subscript {V} (d : gmap string V) (key : string) : exn + V :=
  match d !! key with
  | Some v => inr v
  | None => inl ("KeyError: " ++ key)
  end.

Definition get {V} (d : gmap string V) (key : string) (dflt : V) : V :=
  default dflt (d !! key).

(** ** The service *)

Definition SKIN_TONE_CATEGORIES : list string :=
  ["Fair"; "Light"; "Medium"; "Olive"; "Tan"; "Deep"; "Dark"].

Definition COLOR_RECOMMENDATIONS : gmap string (list string) :=
  list_to_map [
    ("Fair", ["#E6B3B3"; "#D1E6B3"; "#B3E6CC"; "#B3CCE6"; "#D1B3E6";
              "#800000"; "#008080"]);
    ("Light", ["#FFB6C1"; "#98FB98"; "#ADD8E6"; "#DDA0DD"; "#F08080";
               "#4682B4"; "#556B2F"]);
    ("Medium", ["#FF6347"; "#6B8E23"; "#4169E1"; "#BA55D3"; "#20B2AA";
                "#CD5C5C"; "#DAA520"]);
    ("Olive", ["#FF4500"; "#2E8B57"; "#9932CC"; "#8B4513"; "#008B8B";
               "#B8860B"; "#C71585"]);
    ("Tan", ["#FF8C00"; "#006400"; "#8B008B"; "#E9967A"; "#8FBC8F";
             "#483D8B"; "#B22222"]);
    ("Deep", ["#FFA500"; "#00FF00"; "#FF00FF"; "#00FFFF"; "#FFFF00";
              "#800080"; "#DC143C"]);
    ("Dark", ["#FFD700"; "#7CFC00"; "#FF1493"; "#00BFFF"; "#F0E68C";
              "#ADFF2F"; "#FF69B4"])
  ].

(** The mask expression shared by the three places that build a skin mask:
    the elementwise [&] of six comparisons on the channel views. *)
Definition threshold_mask (l_range a_range b_range : float * float)
           (lab_image : grid float) : list bool :=
  map (fun p =>
         Np.geb (sample C0 p) (fst l_range)
         && PrimFloat.leb (sample C0 p) (snd l_range)
         && Np.geb (sample C1 p) (fst a_range)
         && PrimFloat.leb (sample C1 p) (snd a_range)
         && Np.geb (sample C2 p) (fst b_range)
         && PrimFloat.leb (sample C2 p) (snd b_range))
      (pixels lab_image).

Definition get_color_recommendations (skin_tone : string) : exn + list string :=
  if contains COLOR_RECOMMENDATIONS skin_tone
  then subscript COLOR_RECOMMENDATIONS skin_tone
  else subscript COLOR_RECOMMENDATIONS "Medium".

Section Service.

(** [skimage.color.rgb2lab] and [skimage.color.lab2rgb]: an error message
    when they raise, the converted image otherwise. *)
Variable rgb2lab : ndarray -> exn + grid float.
Variable lab2rgb : ndarray -> exn + grid float.
(** [numpy.mean] of a one-dimensional float64 array. *)
Variable np_mean : list float -> float.

Definition detect_skin_tone (image : ref) : M string :=
  try_except
    (lab_image <- call rgb2lab image ;;
     lab <- load_f64 lab_image ;;
     let l_range := (50, 80)%float in
     let a_range := (5, 30)%float in
     let b_range := (10, 40)%float in
     let skin_mask := threshold_mask l_range a_range b_range lab in
     let skin_mask :=
       if (Np.sum skin_mask <? 100)%Z then
         let l_range := (30, 90)%float in
         let a_range := (0, 35)%float in
         let b_range := (5, 45)%float in
         threshold_mask l_range a_range b_range lab
       else skin_mask in
     if (Np.sum skin_mask <? 100)%Z then ret "Medium"
     else
       let skin_l_values := Np.bool_index (Np.chan C0 lab) skin_mask in
       let avg_lightness := np_mean skin_l_values in
       if Np.geb avg_lightness 75 then ret "Fair"
       else if Np.geb avg_lightness 70 then ret "Light"
       else if Np.geb avg_lightness 65 then ret "Medium"
       else if Np.geb avg_lightness 60 then ret "Olive"
       else if Np.geb avg_lightness 55 then ret "Tan"
       else if Np.geb avg_lightness 50 then ret "Deep"
       else ret "Dark")
    (fun e =>
       print ("Error in skin tone detection: " ++ e) ;;;
       ret "Medium").

Definition adjust_skin_tone (image : ref) (target_tone : string) : M ref :=
  try_except
    (lab_image <- call rgb2lab image ;;
     lab <- load_f64 lab_image ;;
     let l_range := (30, 90)%float in
     let a_range := (0, 35)%float in
     let b_range := (5, 45)%float in
     let skin_mask := threshold_mask l_range a_range b_range lab in
     let target_l_values : gmap string Z :=
       list_to_map [("Fair", 78); ("Light", 72); ("Medium", 65);
                    ("Olive", 62); ("Tan", 58); ("Deep", 52);
                    ("Dark", 45)]%Z in
     let target_a_adjustments : gmap string Z :=
       list_to_map [("Fair", -2); ("Light", -1); ("Medium", 0);
                    ("Olive", 1); ("Tan", 2); ("Deep", 3);
                    ("Dark", 4)]%Z in
     let target_b_adjustments : gmap string Z :=
       list_to_map [("Fair", -2); ("Light", -1); ("Medium", 0);
                    ("Olive", 2); ("Tan", 4); ("Deep", 5);
                    ("Dark", 6)]%Z in
     let current_l :=
       if (0 <? Np.sum skin_mask)%Z
       then np_mean (Np.bool_index (Np.chan C0 lab) skin_mask)
       else Np.float_of_Z 65 in
     let target_l := Np.float_of_Z (get target_l_values target_tone 65%Z) in
     let l_adjustment := (target_l - current_l)%float in
     let a_adjustment :=
       Np.float_of_Z (get target_a_adjustments target_tone 0%Z) in
     let b_adjustment :=
       Np.float_of_Z (get target_b_adjustments target_tone 0%Z) in
     adjusted_lab <- copy lab_image ;;
     masked_update adjusted_lab C0 skin_mask
       (fun v => Np.clip (v + l_adjustment) 0 100)%float ;;;
     masked_update adjusted_lab C1 skin_mask
       (fun v => Np.clip (v + a_adjustment) (-127) 127)%float ;;;
     masked_update adjusted_lab C2 skin_mask
       (fun v => Np.clip (v + b_adjustment) (-127) 127)%float ;;;
     adjusted_rgb <- call lab2rgb adjusted_lab ;;
     rgb <- load_f64 adjusted_rgb ;;
     let quantize (x : float) :=
       Np.astype_uint8 (Np.clip (x * 255) 0 255)%float in
     adjusted_rgb <-
       alloc (U8 (Grid (height rgb) (width rgb)
                    (map (fun p => (quantize (sample C0 p),
                                    quantize (sample C1 p),
                                    quantize (sample C2 p)))
                         (pixels rgb)))) ;;
     ret adjusted_rgb)
    (fun e =>
       print ("Error adjusting skin tone: " ++ e) ;;;
       ret image).

End Service.

(** ** The vocabulary of the specification *)

Module Spec.

(** An inclusive range test [lo <= x <= hi]. *)
Definition in_range (lo hi x : float) : bool :=
  PrimFloat.leb lo x && PrimFloat.leb x hi.

(** A threshold band: one closed interval per Lab channel. *)
Record band := Band {
  L_lo : float; L_hi : float;
  a_lo : float; a_hi : float;
  b_lo : float; b_hi : float
}.

Definition strict : band := Band 50 80 5 30 10 40.
Definition lenient : band := Band 30 90 0 35 5 45.

Definition in_band (bd : band) (p : px float) : bool :=
  in_range (L_lo bd) (L_hi bd) (sample C0 p)
  && in_range (a_lo bd) (a_hi bd) (sample C1 p)
  && in_range (b_lo bd) (b_hi bd) (sample C2 p).

(** The skin mask of a Lab image under a band. *)
Definition mask (bd : band) (lab : grid float) : list bool :=
  map (in_band bd) (pixels lab).

(** The mask the classifier ends with: the strict one, or the lenient one
    when the strict one has fewer than 100 true pixels. *)
Definition final_mask (lab : grid float) : list bool :=
  if (Np.sum (mask strict lab) <? 100)%Z then mask lenient lab
  else mask strict lab.

(** Mean L over the pixels selected by a mask. *)
Definition mean_L (mean : list float -> float) (lab : grid float)
           (m : list bool) : float :=
  mean (Np.bool_index (Np.chan C0 lab) m).

(** Ordered cutoffs, first match wins. *)
Definition category (avg : float) : string :=
  if PrimFloat.leb 75 avg then "Fair"
  else if PrimFloat.leb 70 avg then "Light"
  else if PrimFloat.leb 65 avg then "Medium"
  else if PrimFloat.leb 60 avg then "Olive"
  else if PrimFloat.leb 55 avg then "Tan"
  else if PrimFloat.leb 50 avg then "Deep"
  else "Dark".

(** What the classifier answers on a Lab image. *)
Definition detected (mean : list float -> float) (lab : grid float) : string :=
  if (Np.sum (final_mask lab) <? 100)%Z then "Medium"
  else category (mean_L mean lab (final_mask lab)).

(** The per-category tables of the tone adjuster, with their defaults. *)
Definition target_l (tone : string) : Z :=
  if decide (tone = "Fair") then 78
  else if decide (tone = "Light") then 72
  else if decide (tone = "Medium") then 65
  else if decide (tone = "Olive") then 62
  else if decide (tone = "Tan") then 58
  else if decide (tone = "Deep") then 52
  else if decide (tone = "Dark") then 45
  else 65.

Definition a_offset (tone : string) : Z :=
  if decide (tone = "Fair") then -2
  else if decide (tone = "Light") then -1
  else if decide (tone = "Medium") then 0
  else if decide (tone = "Olive") then 1
  else if decide (tone = "Tan") then 2
  else if decide (tone = "Deep") then 3
  else if decide (tone = "Dark") then 4
  else 0.

Definition b_offset (tone : string) : Z :=
  if decide (tone = "Fair") then -2
  else if decide (tone = "Light") then -1
  else if decide (tone = "Medium") then 0
  else if decide (tone = "Olive") then 2
  else if decide (tone = "Tan") then 4
  else if decide (tone = "Deep") then 5
  else if decide (tone = "Dark") then 6
  else 0.

(** [current_l]: mean L over the lenient mask, 65 when it is empty. *)
Definition current_l (mean : list float -> float) (lab : grid float) : float :=
  if (0 <? Np.sum (mask lenient lab))%Z
  then mean_L mean lab (mask lenient lab)
  else 65%float.

(** The shift of one pixel: a uniform additive offset per channel, each
    clipped to the channel's range; pixels outside the band are kept. *)
Definition shift_px (dl da db : float) (p : px float) : px float :=
  if in_band lenient p then
    (Np.clip (sample C0 p + dl) 0 100,
     Np.clip (sample C1 p + da) (-127) 127,
     Np.clip (sample C2 p + db) (-127) 127)%float
  else p.

(** The adjusted Lab image for explicit target values. *)
Definition shifted (mean : list float -> float) (tl ao bo : Z)
           (lab : grid float) : grid float :=
  Grid (height lab) (width lab)
       (map (shift_px (Np.float_of_Z tl - current_l mean lab)%float
                      (Np.float_of_Z ao) (Np.float_of_Z bo))
            (pixels lab)).

Definition adjusted_lab (mean : list float -> float) (tone : string)
           (lab : grid float) : grid float :=
  shifted mean (target_l tone) (a_offset tone) (b_offset tone) lab.

(** Scale to 0..255, clip, truncate to 8 bits. *)
Definition quantize (x : float) : Z :=
  Np.astype_uint8 (Np.clip (x * 255) 0 255)%float.

Definition quantize_px (p : px float) : px Z :=
  (quantize (sample C0 p), quantize (sample C1 p), quantize (sample C2 p)).

Definition to_uint8 (rgb : grid float) : grid Z :=
  Grid (height rgb) (width rgb) (map quantize_px (pixels rgb)).

(** Two 8-bit pixels agree within [tol] on every channel. *)
Definition close (tol : Z) (p q : px Z) : Prop :=
  (Z.abs (sample C0 p - sample C0 q) <= tol
   /\ Z.abs (sample C1 p - sample C1 q) <= tol
   /\ Z.abs (sample C2 p - sample C2 q) <= tol)%Z.

Definition palette_of (tone : string) : list string :=
  if decide (tone = "Fair") then
    ["#E6B3B3"; "#D1E6B3"; "#B3E6CC"; "#B3CCE6"; "#D1B3E6"; "#800000";
     "#008080"]
  else if decide (tone = "Light") then
    ["#FFB6C1"; "#98FB98"; "#ADD8E6"; "#DDA0DD"; "#F08080"; "#4682B4";
     "#556B2F"]
  else if decide (tone = "Medium") then
    ["#FF6347"; "#6B8E23"; "#4169E1"; "#BA55D3"; "#20B2AA"; "#CD5C5C";
     "#DAA520"]
  else if decide (tone = "Olive") then
    ["#FF4500"; "#2E8B57"; "#9932CC"; "#8B4513"; "#008B8B"; "#B8860B";
     "#C71585"]
  else if decide (tone = "Tan") then
    ["#FF8C00"; "#006400"; "#8B008B"; "#E9967A"; "#8FBC8F"; "#483D8B";
     "#B22222"]
  else if decide (tone = "Deep") then
    ["#FFA500"; "#00FF00"; "#FF00FF"; "#00FFFF"; "#FFFF00"; "#800080";
     "#DC143C"]
  else if decide (tone = "Dark") then
    ["#FFD700"; "#7CFC00"; "#FF1493"; "#00BFFF"; "#F0E68C"; "#ADFF2F";
     "#FF69B4"]
  else
    ["#FF6347"; "#6B8E23"; "#4169E1"; "#BA55D3"; "#20B2AA"; "#CD5C5C";
     "#DAA520"].

(** Letter case: [s] is not a category name, but is one up to the case of
    its ASCII letters. *)
Definition ascii_lower (c : Ascii.ascii) : Ascii.ascii :=
  let n := Ascii.nat_of_ascii c in
  if (65 <=? n)%nat && (n <=? 90)%nat then Ascii.ascii_of_nat (n + 32)
  else c.

Fixpoint lower (s : string) : string :=
  match s with
  | EmptyString => EmptyString
  | String c s' => String (ascii_lower c) (lower s')
  end.

Definition differs_only_in_case (s : string) : bool :=
  negb (bool_decide (s ∈ SKIN_TONE_CATEGORIES))
  && bool_decide (lower s ∈ map lower SKIN_TONE_CATEGORIES).

End Spec.

(** ** Stand-ins for the library routines, for running the service

    A sequential-sum mean and two conversions that only rescale samples.
    They are used to evaluate the service on concrete rasters; no theorem
    about the service depends on them. *)

Module Sample.

Definition seq_mean (l : list float) : float :=
  (fold_left PrimFloat.add l 0
   / Np.float_of_Z (Z.of_nat (length l)))%float.

(** Reads the three samples of a raster pixel as L, a and b. *)
Definition as_lab (arr : ndarray) : exn + grid float :=
  match arr with
  | U8 im =>
      inr (Grid (height im) (width im)
             (map (fun p => (Np.float_of_Z (sample C0 p),
                             Np.float_of_Z (sample C1 p),
                             Np.float_of_Z (sample C2 p)))
                  (pixels im)))
  | F64 im => inr im
  end.

(** The inverse rescaling, to samples in 0..1. *)
Definition as_rgb (arr : ndarray) : exn + grid float :=
  match arr with
  | U8 _ => inl "float64 array expected"
  | F64 im =>
      inr (Grid (height im) (width im)
             (map (fun p => (sample C0 p / 255, sample C1 p / 255,
                             sample C2 p / 255)%float)
                  (pixels im)))
  end.

(** Conversions that always raise. *)
Definition failing (arr : ndarray) : exn + grid float :=
  inl "the input array must have size 3 along channel_axis".

(** A conversion that knows one colour: sRGB blue is about L = 32.3,
    a = 79.2, b = -107.9 in CIE Lab under D65 (here rounded to sixteenths).
    Other samples are read as in [as_lab]. *)
Definition blue_lab (arr : ndarray) : exn + grid float :=
  match arr with
  | U8 im =>
      inr (Grid (height im) (width im)
             (map (fun p =>
                     if decide (p = (0, 0, 255)%Z)
                     then (32.3125, 79.1875, -107.875)%float
                     else (Np.float_of_Z (sample C0 p),
                           Np.float_of_Z (sample C1 p),
                           Np.float_of_Z (sample C2 p)))
                  (pixels im)))
  | F64 im => inr im
  end.

(** A uniform height x width raster. *)
Definition uniform (h w : nat) (p : px Z) : ndarray :=
  U8 (Grid h w (replicate (h * w) p)).

(** Stores holding one raster: 100 pixels inside the strict band, one
    skin pixel next to a blue one, and 100 blue pixels. *)
Definition fair_world : world :=
  World [uniform 10 10 (77, 10, 20)%Z] [].
Definition two_pixel_world : world :=
  World [U8 (Grid 1 2 [(77, 10, 20); (0, 0, 255)]%Z)] [].
Definition blue_world : world :=
  World [uniform 10 10 (0, 0, 255)%Z] [].
(** The same raster as in [fair_world], in a store with a history. *)
Definition busy_world : world :=
  World [uniform 1 1 (0, 0, 0)%Z; uniform 10 10 (77, 10, 20)%Z]
        ["earlier output"].

End Sample.

(** ** The page of [app/main.py]: sessions, the UI and the collaborators *)

(** A PIL image in mode RGB, and the contents of a file. *)
Definition pil_image : Type := grid Z.
Definition bytes : Type := string.

(** The dictionary kept per session; its five keys are created together in
    [index] and never removed, [None] is Python's [None]. *)
Record session := Session {
  image_path : option string;
  original_image : option pil_image;
  skin_tone : option string;
  recommended_colors : option (list string);
  adjusted_image : option pil_image
}.

(** An uploaded file: its [name] and what [await file_info.read()] gives. *)
Record file_info := FileInfo {
  name : string;
  read : bytes
}.

(** What the page sends to NiceGUI, in order.  [UiOpen]/[UiClose] delimit a
    [with ui.card() ...:] or [with ui.row() ...:] block. *)
Inductive ui_call :=
| UiOpen (element classes : string)
| UiClose
| UiLabel (text classes : string)
| UiElement (tag classes style : string)
| UiUpload (label props classes : string)
| UiImage (source classes : string)
| UiSelect (options : list string) (value classes : string)
| UiNotify (message type : string)
| UiRefresh (function : string).

(** The state of the server process and of the browser being served:
    arrays and standard output, the module-level [user_data],
    [app.storage.user] (the dictionary NiceGUI keeps for that browser, which
    outlives the server process), the files under [uploads/], and the UI
    calls made. *)
Record app := App {
  py : world;
  user_data : gmap string session;
  storage_user : gmap string string;
  uploads : gmap string bytes;
  page : list ui_call
}.

Definition Act (A : Type) : Type := app -> outcome A * app.

Module Page.

Definition ret {A} (v : A) : Act A := fun a => (Returned v, a).

Definition bind {A B} (m : Act A) (k : A -> Act B) : Act B :=
  fun a =>
    match m a with
    | (Returned v, a') => k v a'
    | (Raised e, a') => (Raised e, a')
    end.

Definition raise {A} (e : exn) : Act A := fun a => (Raised e, a).

Definition try_except {A} (body : Act A) (handler : exn -> Act A) : Act A :=
  fun a =>
    match body a with
    | (Returned v, a') => (Returned v, a')
    | (Raised e, a') => handler e a'
    end.

Definition lift {A} (r : exn + A) : Act A :=
  match r with
  | inl e => raise e
  | inr v => ret v
  end.

(** A call into the numpy side of the process. *)
Definition in_py {A} (m : M A) : Act A :=
  fun a =>
    let (r, w) := m (py a) in
    (r, App w (user_data a) (storage_user a) (uploads a) (page a)).

Definition emit (c : ui_call) : Act unit :=
  fun a => (Returned tt,
            App (py a) (user_data a) (storage_user a) (uploads a)
                (page a ++ [c])).

End Page.

Declare Scope page_scope.
Delimit Scope page_scope with page.
Notation "x <- m ;; k" := (Page.bind m (fun x => k))
  (at level 100, m at next level, right associativity) : page_scope.
Notation "m ;;; k" := (Page.bind m (fun _ => k))
  (at level 100, right associativity) : page_scope.
Local Open Scope page_scope.

(** [str(e)] of the [KeyError] raised by a missing key: the [repr] of the
    key (for a key without quotes, backslashes or control characters). *)
Definition key_error (key : string) : exn := "'" +:+ key +:+ "'".

(** [user_data[session_id]]. *)
Definition session_of (session_id : string) : Act session :=
  fun a =>
    match user_data a !! session_id with
    | Some s => (Returned s, a)
    | None => (Raised (key_error session_id), a)
    end.

(** [user_data[session_id][key] = value], as an update of the session. *)
Definition set_item (session_id : string) (f : session -> session) : Act unit :=
  fun a =>
    match user_data a !! session_id with
    | Some s =>
        (Returned tt,
         App (py a) (<[session_id := f s]> (user_data a)) (storage_user a)
             (uploads a) (page a))
    | None => (Raised (key_error session_id), a)
    end.

Definition with_image_path (v : option string) (s : session) : session :=
  Session v (original_image s) (skin_tone s) (recommended_colors s)
          (adjusted_image s).
Definition with_original_image (v : option pil_image) (s : session) : session :=
  Session (image_path s) v (skin_tone s) (recommended_colors s)
          (adjusted_image s).
Definition with_skin_tone (v : option string) (s : session) : session :=
  Session (image_path s) (original_image s) v (recommended_colors s)
          (adjusted_image s).
Definition with_recommended_colors (v : option (list string)) (s : session)
  : session :=
  Session (image_path s) (original_image s) (skin_tone s) v
          (adjusted_image s).
Definition with_adjusted_image (v : option pil_image) (s : session) : session :=
  Session (image_path s) (original_image s) (skin_tone s)
          (recommended_colors s) v.

(** Truth values of [None], strings and lists. *)
Definition truthy_str (v : option string) : bool :=
  match v with
  | Some (String _ _) => true
  | _ => false
  end.
Definition truthy_list {A} (v : option (list A)) : bool :=
  match v with
  | Some (_ :: _) => true
  | _ => false
  end.

(** [with ui.<element>().classes(classes): body]; the block is left when
    the body raises too. *)
Definition within {A} (element classes : string) (body : Act A) : Act A :=
  Page.emit (UiOpen element classes) ;;;
  Page.try_except
    (v <- body ;; Page.emit UiClose ;;; Page.ret v)
    (fun e => Page.emit UiClose ;;; Page.raise e).

(** [for x in l: body x]. *)
Fixpoint for_each {A} (l : list A) (body : A -> Act unit) : Act unit :=
  match l with
  | [] => Page.ret tt
  | x :: l' => body x ;;; for_each l' body
  end.

(** [print] and [ui.notify(message, type='negative')]. *)
Definition py_print (line : string) : Act unit := Page.in_py (print line).
Definition notify_negative (message : string) : Act unit :=
  Page.emit (UiNotify message "negative").

(** [np.array(img)]: a fresh uint8 array with the samples of the image. *)
Definition np_array (img : pil_image) : Act ref := Page.in_py (alloc (U8 img)).

(** [arr.astype('uint8')] on the samples of an array. *)
Definition astype_uint8 (arr : ndarray) : grid Z :=
  match arr with
  | U8 im => im
  | F64 im =>
      Grid (height im) (width im)
           (map (fun p => (Np.astype_uint8 (sample C0 p),
                           Np.astype_uint8 (sample C1 p),
                           Np.astype_uint8 (sample C2 p)))
                (pixels im))
  end.

(** [Image.fromarray(arr.astype('uint8'))]: the cast allocates a copy, the
    image takes its samples. *)
Definition image_fromarray_uint8 (r : ref) : Act pil_image :=
  arr <- Page.in_py (load r) ;;
  copy <- Page.in_py (alloc (U8 (astype_uint8 arr))) ;;
  Page.ret (astype_uint8 arr).

(** [img.size], as (width, height). *)
Definition img_size (img : pil_image) : Z * Z :=
  (Z.of_nat (width img), Z.of_nat (height img)).

(** The double quote, for the one literal of the page that holds it. *)
Definition dquote : string := String (Ascii.ascii_of_nat 34) EmptyString.

Section PageCode.

Variable rgb2lab : ndarray -> exn + grid float.
Variable lab2rgb : ndarray -> exn + grid float.
Variable np_mean : list float -> float.
(** [Path(name).suffix]. *)
Variable path_suffix : string -> string.
(** [tempfile.NamedTemporaryFile(delete=False, suffix=ext, dir=UPLOAD_DIR)]:
    the name of the file it creates, given the suffix and the directory. *)
Variable named_temporary_file : string -> gmap string bytes -> exn + string.
(** [Image.open(path).convert('RGB')] on the contents of the file. *)
Variable image_open_rgb : bytes -> exn + pil_image.
(** [img.resize(new_size, Image.LANCZOS)]. *)
Variable resize_lanczos : pil_image -> Z * Z -> exn + pil_image.
(** [base64.b64encode] of the PNG encoding of an image. *)
Variable png_base64 : pil_image -> string.

Definition display_image (session_id : string) : Act unit :=
  s <- session_of session_id ;;
  if truthy_str (image_path s) then
    let current_image :=
      match adjusted_image s with
      | Some img => Some img
      | None => original_image s
      end in
    match current_image with
    | Some img =>
        Page.emit (UiImage ("data:image/png;base64," +:+ png_base64 img)
                           "max-w-full max-h-80 object-contain")
    | None => Page.emit (UiLabel "Error loading image" "text-red-500")
    end
  else Page.emit (UiLabel "No image uploaded" "text-gray-500").

Definition display_skin_tone (session_id : string) : Act unit :=
  s <- session_of session_id ;;
  if truthy_str (skin_tone s) then
    Page.emit (UiLabel ("Detected Skin Tone: " +:+ default "" (skin_tone s))
                       "font-bold mt-2") ;;;
    Page.emit (UiLabel "Adjust Skin Tone:" "mt-4") ;;;
    within "row" "items-center w-full"
      (Page.emit (UiSelect SKIN_TONE_CATEGORIES (default "" (skin_tone s))
                           "w-full")) ;;;
    if truthy_list (recommended_colors s) then
      Page.emit (UiLabel "Recommended Colors:" "font-bold mt-4") ;;;
      within "row" "flex-wrap gap-2 mt-2"
        (for_each (default [] (recommended_colors s))
           (fun color_hex =>
              within "card" "p-2"
                (Page.emit (UiElement "div" "w-16 h-16 rounded"
                              ("background-color: " +:+ color_hex)) ;;;
                 Page.emit (UiLabel color_hex "text-center text-sm mt-1"))))
    else Page.ret tt
  else
    Page.emit (UiLabel "Upload an image to see skin tone analysis"
                       "text-gray-500").

(** [display_image.refresh()] and [display_skin_tone.refresh()]: the
    function is run again. *)
Definition refresh_display_image (session_id : string) : Act unit :=
  Page.emit (UiRefresh "display_image") ;;; display_image session_id.
Definition refresh_display_skin_tone (session_id : string) : Act unit :=
  Page.emit (UiRefresh "display_skin_tone") ;;; display_skin_tone session_id.

Definition handle_upload (event_files : list file_info) (session_id : string)
  : Act unit :=
  Page.try_except
    (match event_files with
     | [] => Page.ret tt
     | file_info :: _ =>
         let ext := path_suffix (name file_info) in
         file_path <-
           (fun a =>
              match named_temporary_file ext (uploads a) with
              | inr path =>
                  (Returned path,
                   App (py a) (user_data a) (storage_user a)
                       (<[path := ""]> (uploads a)) (page a))
              | inl e => (Raised e, a)
              end) ;;
         (fun a =>
            (Returned tt,
             App (py a) (user_data a) (storage_user a)
                 (<[file_path := read file_info]> (uploads a)) (page a))) ;;;
         Page.try_except
           (img <-
              (fun a =>
                 match uploads a !! file_path with
                 | Some data => Page.lift (image_open_rgb data) a
                 | None => (Raised ("No such file: " +:+ file_path), a)
                 end) ;;
            let max_size := 1000%Z in
            img <-
              (if (max_size <? Z.max (fst (img_size img)) (snd (img_size img)))%Z
               then
                 let ratio :=
                   (Np.float_of_Z max_size
                    / Np.float_of_Z (Z.max (fst (img_size img)) (snd (img_size img))))%float in
                 let new_size :=
                   (Np.trunc (Np.float_of_Z (fst (img_size img)) * ratio),
                    Np.trunc (Np.float_of_Z (snd (img_size img)) * ratio)) in
                 Page.lift (resize_lanczos img new_size)
               else Page.ret img) ;;
            set_item session_id (with_image_path (Some file_path)) ;;;
            set_item session_id (with_original_image (Some img)) ;;;
            arr <- np_array img ;;
            skin_tone <- Page.in_py (detect_skin_tone rgb2lab np_mean arr) ;;
            set_item session_id (with_skin_tone (Some skin_tone)) ;;;
            recommended_colors <-
              Page.lift (get_color_recommendations skin_tone) ;;
            set_item session_id
              (with_recommended_colors (Some recommended_colors)) ;;;
            set_item session_id (with_adjusted_image None) ;;;
            refresh_display_image session_id ;;;
            refresh_display_skin_tone session_id)
           (fun e =>
              notify_negative ("Error processing image: " +:+ e) ;;;
              py_print ("Error processing image: " +:+ e))
     end)
    (fun e =>
       notify_negative ("Upload failed: " +:+ e) ;;;
       py_print ("Upload failed: " +:+ e)).

Definition adjust_image_skin_tone (new_tone session_id : string) : Act unit :=
  Page.try_except
    (s <- session_of session_id ;;
     match original_image s with
     | None => Page.ret tt
     | Some img =>
         original_img_array <- np_array img ;;
         adjusted_img_array <-
           Page.in_py (adjust_skin_tone rgb2lab lab2rgb np_mean
                         original_img_array new_tone) ;;
         adjusted_img <- image_fromarray_uint8 adjusted_img_array ;;
         set_item session_id (with_adjusted_image (Some adjusted_img)) ;;;
         set_item session_id (with_skin_tone (Some new_tone)) ;;;
         recommended_colors <-
           Page.lift (get_color_recommendations new_tone) ;;
         set_item session_id
           (with_recommended_colors (Some recommended_colors)) ;;;
         refresh_display_image session_id ;;;
         refresh_display_skin_tone session_id
     end)
    (fun e =>
       notify_negative ("Error adjusting skin tone: " +:+ e) ;;;
       py_print ("Error adjusting skin tone: " +:+ e)).

(** [index], for the value [uuid4] that [str(uuid.uuid4())] would give. *)
Definition index (uuid4 : string) : Act unit :=
  session_id <-
    (fun a =>
       if truthy_str (storage_user a !! "session_id") then
         (Returned (default "" (storage_user a !! "session_id")), a)
       else
         (Returned uuid4,
          App (py a)
              (<[uuid4 := Session None None None None None]> (user_data a))
              (<["session_id" := uuid4]> (storage_user a))
              (uploads a) (page a))) ;;
  within "card" "w-full max-w-5xl mx-auto"
    (Page.emit (UiLabel "Skin Tone Color Advisor"
                        "text-2xl font-bold text-center") ;;;
     Page.emit (UiLabel "Upload a photo to get personalized color recommendations based on skin tone"
                        "text-center mb-4")) ;;;
  within "card" "w-full max-w-5xl mx-auto mt-4"
    (within "row" "w-full items-center justify-center"
       (Page.emit (UiUpload "Upload Image"
                     ("accept=" +:+ dquote +:+ ".jpg, .jpeg, .png" +:+ dquote)
                     "max-w-xs"))) ;;;
  within "row" "w-full max-w-5xl mx-auto mt-4 gap-4"
    (within "card" "flex-1"
       (Page.emit (UiElement "div" "w-full flex justify-center" "") ;;;
        display_image session_id) ;;;
     within "card" "flex-1"
       (Page.emit (UiLabel "Skin Tone Analysis" "text-xl font-bold") ;;;
        display_skin_tone session_id)) ;;;
  within "card" "w-full max-w-5xl mx-auto mt-4"
    (Page.emit (UiLabel "How it works:" "font-bold") ;;;
     within "row" "gap-2"
       (within "card" "flex-1 p-3"
          (Page.emit (UiLabel "1. Upload a photo" "font-bold") ;;;
           Page.emit (UiLabel "Upload a clear photo showing the person's face or skin" "")) ;;;
        within "card" "flex-1 p-3"
          (Page.emit (UiLabel "2. Analyze skin tone" "font-bold") ;;;
           Page.emit (UiLabel "The app detects the dominant skin tone in the image" "")) ;;;
        within "card" "flex-1 p-3"
          (Page.emit (UiLabel "3. Get recommendations" "font-bold") ;;;
           Page.emit (UiLabel "See color palettes that complement the detected skin tone" "")) ;;;
        within "card" "flex-1 p-3"
          (Page.emit (UiLabel "4. Try different tones" "font-bold") ;;;
           Page.emit (UiLabel "Adjust the skin tone to see how different colors would look" "")))).

End PageCode.

(** ** The vocabulary of the further properties *)

Definition is_hex_digit (c : Ascii.ascii) : bool :=
  let n := Ascii.nat_of_ascii c in
  ((48 <=? n)%nat && (n <=? 57)%nat) || ((65 <=? n)%nat && (n <=? 70)%nat).

Definition is_hex_color (s : string) : bool :=
  match s with
  | String c digits =>
      (Ascii.nat_of_ascii c =? 35)%nat
      && (String.length digits =? 6)%nat
      && forallb is_hex_digit (String.list_ascii_of_string digits)
  | EmptyString => false
  end.

(** What the classifier and the adjuster compute from an RGB image. *)
Definition tone_of_image (rgb2lab : ndarray -> exn + grid float)
           (mean : list float -> float) (img : pil_image) : string :=
  match rgb2lab (U8 img) with
  | inr lab => Spec.detected mean lab
  | inl _ => "Medium"
  end.

Definition adjusted_image_of (rgb2lab lab2rgb : ndarray -> exn + grid float)
           (mean : list float -> float) (img : pil_image) (tone : string)
  : pil_image :=
  match rgb2lab (U8 img) with
  | inr lab =>
      match lab2rgb (F64 (Spec.adjusted_lab mean tone lab)) with
      | inr rgb => Spec.to_uint8 rgb
      | inl _ => img
      end
  | inl _ => img
  end.

(** The image kept from an upload: resized when its longer side exceeds
    1000 pixels. *)
Definition fitted (resize : pil_image -> Z * Z -> exn + pil_image)
           (img : pil_image) : exn + pil_image :=
  let longer := Z.max (fst (img_size img)) (snd (img_size img)) in
  if (1000 <? longer)%Z then
    let ratio := (Np.float_of_Z 1000 / Np.float_of_Z longer)%float in
    resize img (Np.trunc (Np.float_of_Z (fst (img_size img)) * ratio),
                Np.trunc (Np.float_of_Z (snd (img_size img)) * ratio))
  else inr img.

(** The state after some more UI calls. *)
Definition drawn (a : app) (calls : list ui_call) : app :=
  App (py a) (user_data a) (storage_user a) (uploads a) (page a ++ calls).

(** The state after a failure was reported: a negative notification and the
    same line on standard output. *)
Definition reported (a : app) (line : string) : app :=
  App (World (heap (py a)) (stdout (py a) ++ [line])) (user_data a)
      (storage_user a) (uploads a) (page a ++ [UiNotify line "negative"]).

(** The state once the upload is written to its temporary file. *)
Definition saved (a : app) (path : string) (data : bytes) : app :=
  App (py a) (user_data a) (storage_user a) (<[path := data]> (uploads a))
      (page a).

(** A UI call that is no notification. *)
Definition quiet (c : ui_call) : Prop :=
  match c with
  | UiNotify _ _ => False
  | _ => True
  end.

(** A computation that only draws: it returns and adds UI calls, none of
    them a notification. *)
Definition draws (m : Act unit) : Prop :=
  forall a, exists calls,
    m a = (Returned tt, drawn a calls) /\ Forall quiet calls.

(** A computation that returns after exactly these UI calls. *)
Definition renders (m : Act unit) (calls : list ui_call) : Prop :=
  forall a, m a = (Returned tt, drawn a calls).

(** Drawing until an exception: the computation raises [e] after some UI
    calls, in every state that satisfies [cond]. *)
Definition raises_when (cond : app -> Prop) (e : exn) (m : Act unit) : Prop :=
  forall a, cond a -> exists calls, m a = (Raised e, drawn a calls).

Definition draws_when (cond : app -> Prop) (m : Act unit) : Prop :=
  forall a, cond a ->
    exists calls, m a = (Returned tt, drawn a calls) /\ Forall quiet calls.

Definition stable (cond : app -> Prop) : Prop :=
  forall a calls, cond a -> cond (drawn a calls).

Definition has_session (sid : string) (s : session) (a : app) : Prop :=
  user_data a !! sid = Some s.
Definition lacks_session (sid : string) (a : app) : Prop :=
  user_data a !! sid = None.

(** What [display_image] and [display_skin_tone] show for a session. *)
Definition image_view (png_base64 : pil_image -> string) (s : session)
  : ui_call :=
  if truthy_str (image_path s) then
    match adjusted_image s, original_image s with
    | Some img, _ | None, Some img =>
        UiImage ("data:image/png;base64," +:+ png_base64 img)
                "max-w-full max-h-80 object-contain"
    | None, None => UiLabel "Error loading image" "text-red-500"
    end
  else UiLabel "No image uploaded" "text-gray-500".

Definition swatch (color_hex : string) : list ui_call :=
  [UiOpen "card" "p-2";
   UiElement "div" "w-16 h-16 rounded" ("background-color: " +:+ color_hex);
   UiLabel color_hex "text-center text-sm mt-1";
   UiClose].

Definition tone_view (s : session) : list ui_call :=
  match skin_tone s with
  | Some (String c tone' as tone) =>
      [UiLabel ("Detected Skin Tone: " +:+ tone) "font-bold mt-2";
       UiLabel "Adjust Skin Tone:" "mt-4";
       UiOpen "row" "items-center w-full";
       UiSelect SKIN_TONE_CATEGORIES tone "w-full";
       UiClose]
      ++ match recommended_colors s with
         | Some (color :: colors') =>
             [UiLabel "Recommended Colors:" "font-bold mt-4";
              UiOpen "row" "flex-wrap gap-2 mt-2"]
             ++ concat (map swatch (color :: colors')) ++ [UiClose]
         | _ => []
         end
  | _ => [UiLabel "Upload an image to see skin tone analysis" "text-gray-500"]
  end.

(** The two refreshes that end both handlers. *)
Definition refresh_view (png_base64 : pil_image -> string) (s : session)
  : list ui_call :=
  [UiRefresh "display_image"; image_view png_base64 s;
   UiRefresh "display_skin_tone"] ++ tone_view s.

(** The session after a tone has been chosen. *)
Definition retoned (rgb2lab lab2rgb : ndarray -> exn + grid float)
           (np_mean : list float -> float) (s : session) (img : pil_image) (tone : string) : session :=
  Session (image_path s) (Some img) (Some tone)
          (Some (Spec.palette_of tone))
          (Some (adjusted_image_of rgb2lab lab2rgb np_mean img tone)).

(** The session after an upload. *)
Definition uploaded (rgb2lab : ndarray -> exn + grid float)
           (np_mean : list float -> float) (path : string) (img : pil_image) : session :=
  Session (Some path) (Some img) (Some (tone_of_image rgb2lab np_mean img))
          (Some (Spec.palette_of (tone_of_image rgb2lab np_mean img))) None.

(** The part of [index] after the session is settled. *)
Definition index_body (png_base64 : pil_image -> string)
           (session_id : string) : Act unit :=
  within "card" "w-full max-w-5xl mx-auto"
    (Page.emit (UiLabel "Skin Tone Color Advisor"
                        "text-2xl font-bold text-center") ;;;
     Page.emit (UiLabel "Upload a photo to get personalized color recommendations based on skin tone"
                        "text-center mb-4")) ;;;
  within "card" "w-full max-w-5xl mx-auto mt-4"
    (within "row" "w-full items-center justify-center"
       (Page.emit (UiUpload "Upload Image"
                     ("accept=" +:+ dquote +:+ ".jpg, .jpeg, .png" +:+ dquote)
                     "max-w-xs"))) ;;;
  within "row" "w-full max-w-5xl mx-auto mt-4 gap-4"
    (within "card" "flex-1"
       (Page.emit (UiElement "div" "w-full flex justify-center" "") ;;;
        display_image png_base64 session_id) ;;;
     within "card" "flex-1"
       (Page.emit (UiLabel "Skin Tone Analysis" "text-xl font-bold") ;;;
        display_skin_tone session_id)) ;;;
  within "card" "w-full max-w-5xl mx-auto mt-4"
    (Page.emit (UiLabel "How it works:" "font-bold") ;;;
     within "row" "gap-2"
       (within "card" "flex-1 p-3"
          (Page.emit (UiLabel "1. Upload a photo" "font-bold") ;;;
           Page.emit (UiLabel "Upload a clear photo showing the person's face or skin" "")) ;;;
        within "card" "flex-1 p-3"
          (Page.emit (UiLabel "2. Analyze skin tone" "font-bold") ;;;
           Page.emit (UiLabel "The app detects the dominant skin tone in the image" "")) ;;;
        within "card" "flex-1 p-3"
          (Page.emit (UiLabel "3. Get recommendations" "font-bold") ;;;
           Page.emit (UiLabel "See color palettes that complement the detected skin tone" "")) ;;;
        within "card" "flex-1 p-3"
          (Page.emit (UiLabel "4. Try different tones" "font-bold") ;;;
           Page.emit (UiLabel "Adjust the skin tone to see how different colors would look" "")))).

(** A session as the handlers leave it: empty, or with an image, a category
    and the palette stored for that category. *)
Definition session_ok (s : session) : Prop :=
  match skin_tone s with
  | None => s = Session None None None None None
  | Some tone =>
      tone ∈ SKIN_TONE_CATEGORIES
      /\ recommended_colors s = COLOR_RECOMMENDATIONS !! tone
      /\ is_Some (original_image s)
      /\ is_Some (image_path s)
  end.

(** The state seen by a browser whose [app.storage.user] is [st]. *)
Definition serving (st : gmap string string) (a : app) : app :=
  App (py a) (user_data a) st (uploads a) (page a).

(** What a step does to [user_data]: nothing, or one session is replaced by
    a well-formed one. *)
Definition touches (a a' : app) : Prop :=
  user_data a' = user_data a
  \/ exists sid s',
      user_data a' = <[sid := s']> (user_data a)
      /\ ((forall s, user_data a !! sid = Some s -> session_ok s) ->
          session_ok s').

Section Server.

Variable rgb2lab : ndarray -> exn + grid float.
Variable lab2rgb : ndarray -> exn + grid float.
Variable np_mean : list float -> float.
Variable path_suffix : string -> string.
Variable named_temporary_file : string -> gmap string bytes -> exn + string.
Variable image_open_rgb : bytes -> exn + pil_image.
Variable resize_lanczos : pil_image -> Z * Z -> exn + pil_image.
Variable png_base64 : pil_image -> string.

(** The states the server can be in: it starts without sessions, then pages
    are visited by browsers, files are uploaded and tones are chosen from
    the select (whose options are the categories). *)
Inductive reachable : app -> Prop :=
| reach_start w st up pg : reachable (App w ∅ st up pg)
| reach_index a uuid4 st :
    reachable a -> reachable (snd (index png_base64 uuid4 (serving st a)))
| reach_upload a files sid :
    reachable a -> reachable (snd (handle_upload rgb2lab np_mean path_suffix
                     named_temporary_file image_open_rgb resize_lanczos
                     png_base64 files sid a))
| reach_adjust a tone sid :
    reachable a -> tone ∈ SKIN_TONE_CATEGORIES ->
    reachable (snd (adjust_image_skin_tone rgb2lab lab2rgb np_mean
                     png_base64 tone sid a)).

End Server.

(** ** Stand-ins for the collaborators of the page *)

Module SamplePage.

(** Stand-ins for pathlib, tempfile, PIL and base64. *)
Definition suffix (name : string) : string := ".png".
Definition temp_name (ext : string) (files : gmap string bytes)
  : exn + string :=
  inr ("uploads/tmp0001" +:+ ext).
Definition two_pixels : pil_image := Grid 1 2 [(77, 10, 20); (0, 0, 255)]%Z.
Definition decode (data : bytes) : exn + pil_image :=
  if decide (data = "") then inl "cannot identify image file"
  else inr two_pixels.
Definition resize (img : pil_image) (new_size : Z * Z) : exn + pil_image :=
  inr (Grid (Z.to_nat (snd new_size)) (Z.to_nat (fst new_size)) []).
Definition png (img : pil_image) : string := "iVBORw0KGgo=".

(** A server that has just started, a browser without stored session. *)
Definition started : app := App (World [] []) ∅ ∅ ∅ [].
(** The same server once a browser was given the session [u1]. *)
Definition visited : app := snd (index png "u1" started).
(** That session after the upload of a two-pixel picture. *)
Definition photo : file_info := FileInfo "me.png" "PNG...".
Definition with_photo : app :=
  snd (handle_upload Sample.as_lab Sample.seq_mean suffix temp_name decode
         resize png [photo] "u1" visited).
(** A browser that still holds the session of an earlier server process. *)
Definition restarted : app :=
  App (World [] []) ∅ {["session_id" := "u0"]} ∅ [].

(** 100 pixels of lightness 45, inside the lenient band only. *)
Definition dark_world : world := World [Sample.uniform 10 10 (45, 10, 20)%Z] [].

End SamplePage.

Local Close Scope page_scope.

(** * Properties *)

(** ** Running the store operations *)

Lemma load_run w r v :
  heap w !! r = Some v -> load r w = (Returned v, w).
Proof. intros H. unfold load. by rewrite H. Qed.

Lemma load_fresh h out v :
  load (length h) (World (h ++ [v]) out) = (Returned v, World (h ++ [v]) out).
Proof. apply load_run. simpl. by apply list_lookup_middle. Qed.

Lemma load_f64_fresh h out im :
  load_f64 (length h) (World (h ++ [F64 im]) out)
  = (Returned im, World (h ++ [F64 im]) out).
Proof. unfold load_f64, bind. by rewrite load_fresh. Qed.

Lemma store_fresh h out v v' :
  store (length h) v' (World (h ++ [v]) out)
  = (Returned tt, World (h ++ [v']) out).
Proof.
  unfold store. simpl. rewrite list_lookup_middle by done.
  rewrite insert_app_r_alt by done.
  by rewrite Nat.sub_diag.
Qed.

Lemma call_ok f w r arr res :
  heap w !! r = Some arr -> f arr = inr res ->
  call f r w = (Returned (length (heap w)),
                World (heap w ++ [F64 res]) (stdout w)).
Proof.
  intros Hr Hf. unfold call, bind. rewrite (load_run _ _ _ Hr), Hf. done.
Qed.

Lemma call_raises f w r arr e :
  heap w !! r = Some arr -> f arr = inl e -> call f r w = (Raised e, w).
Proof.
  intros Hr Hf. unfold call, bind. rewrite (load_run _ _ _ Hr), Hf. done.
Qed.

Lemma call_invalid f w r :
  heap w !! r = None -> call f r w = (Raised "invalid reference", w).
Proof. intros Hr. unfold call, bind, load. by rewrite Hr. Qed.

Lemma call_fresh f h out v res :
  f v = inr res ->
  call f (length h) (World (h ++ [v]) out)
  = (Returned (length (h ++ [v])), World ((h ++ [v]) ++ [F64 res]) out).
Proof. intros Hf. unfold call, bind. by rewrite load_fresh, Hf. Qed.

Lemma call_fresh_raises f h out v e :
  f v = inl e ->
  call f (length h) (World (h ++ [v]) out) = (Raised e, World (h ++ [v]) out).
Proof. intros Hf. unfold call, bind. by rewrite load_fresh, Hf. Qed.

Lemma lookup_fresh {A} (h : list A) (news : list A) (n : nat) :
  (h ++ news)%list !! (length h + n) = news !! n.
Proof. rewrite lookup_app_r by lia. f_equal. lia. Qed.

Lemma lookup_fresh_1 {A} (h : list A) (news : list A) :
  (h ++ news)%list !! S (length h) = news !! 1.
Proof. rewrite <- (lookup_fresh h news 1). f_equal. lia. Qed.

(** ** Masked assignment is a pointwise update *)

Lemma masked_assign_pointwise {A} (c : channel) (f : A -> A)
      (buf : list (px A)) :
  forall mask : list bool,
    length mask = length buf ->
    Np.masked_assign c buf mask
      (map f (Np.bool_index (map (sample c) buf) mask))
    = Some (zip_with (Np.update_where c f) buf mask).
Proof.
  induction buf as [|p buf IH]; intros [|m mask] Hlen; simpl in *; try done.
  injection Hlen as Hlen.
  destruct m; simpl; by rewrite IH.
Qed.

Lemma masked_update_fresh h out im c mask f :
  length mask = length (pixels im) ->
  masked_update (length h) c mask f (World (h ++ [F64 im]) out)
  = (Returned tt,
     World (h ++ [F64 (Grid (height im) (width im)
                         (zip_with (Np.update_where c f) (pixels im) mask))])
           out).
Proof.
  intros Hlen. unfold masked_update, bind.
  rewrite load_f64_fresh. unfold Np.chan.
  rewrite masked_assign_pointwise by done.
  apply store_fresh.
Qed.

Lemma zip_with_same_length {A B C} (f : A -> B -> C) (l : list A)
      (k : list B) :
  length k = length l -> length k = length (zip_with f l k).
Proof.
  revert k. induction l as [|x l IH]; intros [|y k] H; simpl in *; try done.
  injection H as H. by rewrite <- IH.
Qed.

Lemma three_updates_pointwise (fl fa fb : float -> float)
      (buf : list (px float)) :
  zip_with (Np.update_where C2 fb)
    (zip_with (Np.update_where C1 fa)
       (zip_with (Np.update_where C0 fl) buf
          (map (Spec.in_band Spec.lenient) buf))
       (map (Spec.in_band Spec.lenient) buf))
    (map (Spec.in_band Spec.lenient) buf)
  = map (fun p => if Spec.in_band Spec.lenient p
                  then (fl (sample C0 p), fa (sample C1 p), fb (sample C2 p))
                  else p) buf.
Proof.
  induction buf as [|[[x y] z] buf IH]; [done|].
  cbn [map zip_with]. rewrite IH. f_equal.
  unfold Np.update_where. by destruct (Spec.in_band Spec.lenient (x, y, z)).
Qed.

Lemma shift_px_outside dl da db p :
  Spec.in_band Spec.lenient p = false -> Spec.shift_px dl da db p = p.
Proof. unfold Spec.shift_px. by intros ->. Qed.

(** ** The mask expression and the dictionaries *)

Lemma threshold_mask_spec (bd : Spec.band) (lab : grid float) :
  threshold_mask (Spec.L_lo bd, Spec.L_hi bd) (Spec.a_lo bd, Spec.a_hi bd)
                 (Spec.b_lo bd, Spec.b_hi bd) lab
  = Spec.mask bd lab.
Proof.
  unfold threshold_mask, Spec.mask. apply map_ext. intros p.
  unfold Spec.in_band, Spec.in_range, Np.geb. simpl.
  by rewrite !andb_assoc.
Qed.

Ltac fold_bands lab :=
  change (threshold_mask (50, 80)%float (5, 30)%float (10, 40)%float lab)
    with (threshold_mask (Spec.L_lo Spec.strict, Spec.L_hi Spec.strict)
            (Spec.a_lo Spec.strict, Spec.a_hi Spec.strict)
            (Spec.b_lo Spec.strict, Spec.b_hi Spec.strict) lab);
  change (threshold_mask (30, 90)%float (0, 35)%float (5, 45)%float lab)
    with (threshold_mask (Spec.L_lo Spec.lenient, Spec.L_hi Spec.lenient)
            (Spec.a_lo Spec.lenient, Spec.a_hi Spec.lenient)
            (Spec.b_lo Spec.lenient, Spec.b_hi Spec.lenient) lab);
  rewrite !threshold_mask_spec.

Ltac dict_lookup :=
  cbn [list_to_map foldr uncurry];
  repeat case_decide; subst; try reflexivity;
  rewrite !lookup_insert_ne by done; by rewrite lookup_empty.

Lemma get_target_l tone :
  get (list_to_map [("Fair", 78); ("Light", 72); ("Medium", 65);
                    ("Olive", 62); ("Tan", 58); ("Deep", 52);
                    ("Dark", 45)]%Z : gmap string Z) tone 65%Z
  = Spec.target_l tone.
Proof. unfold get, Spec.target_l. dict_lookup. Qed.

Lemma get_a_offset tone :
  get (list_to_map [("Fair", -2); ("Light", -1); ("Medium", 0);
                    ("Olive", 1); ("Tan", 2); ("Deep", 3);
                    ("Dark", 4)]%Z : gmap string Z) tone 0%Z
  = Spec.a_offset tone.
Proof. unfold get, Spec.a_offset. dict_lookup. Qed.

Lemma get_b_offset tone :
  get (list_to_map [("Fair", -2); ("Light", -1); ("Medium", 0);
                    ("Olive", 2); ("Tan", 4); ("Deep", 5);
                    ("Dark", 6)]%Z : gmap string Z) tone 0%Z
  = Spec.b_offset tone.
Proof. unfold get, Spec.b_offset. dict_lookup. Qed.

Lemma get_color_recommendations_palette (s : string) :
  get_color_recommendations s = inr (Spec.palette_of s).
Proof.
  unfold get_color_recommendations, contains, subscript,
    Spec.palette_of, COLOR_RECOMMENDATIONS.
  cbn [list_to_map foldr uncurry].
  repeat case_decide; subst; try reflexivity.
  rewrite !lookup_insert_ne by done. rewrite lookup_empty.
  rewrite bool_decide_eq_false_2 by (intros [? ?]; done).
  reflexivity.
Qed.

(** ** The order of binary64 *)

Lemma SFleb_trans (x y z : spec_float) :
  SFleb x y = true -> SFleb y z = true -> SFleb x z = true.
Proof.
  unfold SFleb, SFcompare.
  destruct x as [sx|sx| |sx mx ex], y as [sy|sy| |sy my ey],
           z as [sz|sz| |sz mz ez];
    repeat match goal with s : bool |- _ => destruct s end;
    try done;
    change (PosDef.Pos.compare_cont Eq) with Pos.compare;
    destruct (Z.compare_spec ex ey), (Z.compare_spec ey ez),
             (Z.compare_spec ex ez);
    try done; try lia; subst;
    destruct (Pos.compare_spec mx my), (Pos.compare_spec my mz),
             (Pos.compare_spec mx mz);
    simpl; try done; lia.
Qed.

Lemma leb_trans (x y z : float) :
  PrimFloat.leb x y = true -> PrimFloat.leb y z = true ->
  PrimFloat.leb x z = true.
Proof. rewrite !leb_spec. apply SFleb_trans. Qed.

Lemma in_range_widen (lo hi lo' hi' x : float) :
  PrimFloat.leb lo' lo = true -> PrimFloat.leb hi hi' = true ->
  Spec.in_range lo hi x = true -> Spec.in_range lo' hi' x = true.
Proof.
  unfold Spec.in_range. intros Hlo Hhi [H1 H2]%andb_prop.
  rewrite (leb_trans _ _ _ Hlo H1), (leb_trans _ _ _ H2 Hhi). done.
Qed.

Lemma strict_in_lenient (p : px float) :
  Spec.in_band Spec.strict p = true -> Spec.in_band Spec.lenient p = true.
Proof.
  unfold Spec.in_band. intros [[HL Ha]%andb_prop Hb]%andb_prop.
  rewrite !andb_true_iff. repeat split.
  all: eapply in_range_widen; [| |eassumption]; reflexivity.
Qed.

(** Splits the cascade of cutoffs on [avg]; the impossible combinations are
    ruled out by transitivity. *)
Ltac split_cutoffs avg :=
  repeat match goal with
         | |- context [if PrimFloat.leb ?c avg then _ else _] =>
             destruct (PrimFloat.leb c avg) eqn:?
         end;
  try done;
  exfalso;
  match goal with
  | H1 : PrimFloat.leb ?a avg = true, H2 : PrimFloat.leb ?b avg = false |- _ =>
      rewrite (leb_trans b a avg eq_refl H1) in H2; discriminate H2
  end.

(** ** Counting mask pixels *)

Lemma sum_mono (m1 m2 : list bool) :
  Forall2 (fun x y => x = true -> y = true) m1 m2 ->
  (Np.sum m1 <= Np.sum m2)%Z.
Proof.
  induction 1 as [|x y m1 m2 Hxy _ IH]; simpl; [lia|].
  destruct x, y; first [lia | by specialize (Hxy eq_refl)].
Qed.

Lemma sum_all_false (m : list bool) :
  Forall (fun x => x = false) m -> Np.sum m = 0%Z.
Proof. induction 1 as [|x m -> _ IH]; simpl; lia. Qed.

Lemma mask_sum_strict_le_lenient (lab : grid float) :
  (Np.sum (Spec.mask Spec.strict lab)
   <= Np.sum (Spec.mask Spec.lenient lab))%Z.
Proof.
  apply sum_mono. unfold Spec.mask.
  induction (pixels lab) as [|p l IH]; constructor; [|done].
  apply strict_in_lenient.
Qed.

Lemma detected_in_categories mean lab :
  Spec.detected mean lab ∈ SKIN_TONE_CATEGORIES.
Proof.
  unfold Spec.detected, Spec.category, SKIN_TONE_CATEGORIES.
  repeat match goal with
         | |- context [if ?b then _ else _] => destruct b
         end; set_solver.
Qed.

(** ** What a call does to the world *)

Section ServiceFacts.

Variable rgb2lab : ndarray -> exn + grid float.
Variable lab2rgb : ndarray -> exn + grid float.
Variable np_mean : list float -> float.

(** The classifier on a raster the conversion accepts: the Lab image is the
    only new object. *)
Lemma detect_skin_tone_ok w image arr lab :
  heap w !! image = Some arr -> rgb2lab arr = inr lab ->
  detect_skin_tone rgb2lab np_mean image w
  = (Returned (Spec.detected np_mean lab),
     World (heap w ++ [F64 lab]) (stdout w)).
Proof.
  intros Hr Hc. unfold detect_skin_tone, try_except, bind at 1.
  rewrite (call_ok _ _ _ _ _ Hr Hc).
  unfold bind. rewrite load_f64_fresh.
  fold_bands lab.
  unfold Spec.detected, Spec.category, Spec.mean_L, Np.geb.
  fold (Spec.final_mask lab).
  cbv zeta.
  destruct (Np.sum (Spec.final_mask lab) <? 100)%Z; [done|].
  repeat match goal with
         | |- context [if PrimFloat.leb ?c ?x then _ else _] =>
             destruct (PrimFloat.leb c x)
         end; done.
Qed.

Lemma detect_skin_tone_conversion_error w image arr e :
  heap w !! image = Some arr -> rgb2lab arr = inl e ->
  detect_skin_tone rgb2lab np_mean image w
  = (Returned "Medium",
     World (heap w) (stdout w ++ ["Error in skin tone detection: " ++ e])).
Proof.
  intros Hr Hc. unfold detect_skin_tone, try_except, bind at 1.
  by rewrite (call_raises _ _ _ _ _ Hr Hc).
Qed.

Lemma detect_skin_tone_invalid w image :
  heap w !! image = None ->
  detect_skin_tone rgb2lab np_mean image w
  = (Returned "Medium",
     World (heap w)
       (stdout w ++ ["Error in skin tone detection: invalid reference"])).
Proof.
  intros Hr. unfold detect_skin_tone, try_except, bind at 1.
  by rewrite (call_invalid _ _ _ Hr).
Qed.

(** The adjuster on a raster the conversion accepts: the Lab image and its
    shifted copy are allocated, the masked assignments never raise, and the
    outcome is decided by the conversion back. *)
Lemma adjust_skin_tone_converted w image tone arr lab :
  heap w !! image = Some arr -> rgb2lab arr = inr lab ->
  adjust_skin_tone rgb2lab lab2rgb np_mean image tone w
  = match lab2rgb (F64 (Spec.adjusted_lab np_mean tone lab)) with
    | inr rgb =>
        (Returned (length (heap w) + 3),
         World (heap w ++ [F64 lab; F64 (Spec.adjusted_lab np_mean tone lab);
                           F64 rgb; U8 (Spec.to_uint8 rgb)])
               (stdout w))
    | inl e =>
        (Returned image,
         World (heap w ++ [F64 lab; F64 (Spec.adjusted_lab np_mean tone lab)])
               (stdout w ++ ["Error adjusting skin tone: " ++ e]))
    end.
Proof.
  intros Hr Hc. unfold adjust_skin_tone, try_except, bind at 1.
  rewrite (call_ok _ _ _ _ _ Hr Hc).
  unfold bind at 1. rewrite load_f64_fresh.
  rewrite get_target_l, get_a_offset, get_b_offset.
  fold_bands lab. cbv zeta.
  unfold bind at 1. unfold copy at 1. unfold bind at 1.
  rewrite load_fresh. unfold alloc at 1. cbn [heap stdout].
  assert (Hlen : length (Spec.mask Spec.lenient lab) = length (pixels lab))
    by (unfold Spec.mask; by rewrite length_map).
  unfold bind at 1. rewrite masked_update_fresh by done.
  unfold bind at 1.
  rewrite masked_update_fresh.
  2:{ cbn [pixels]. by apply zip_with_same_length. }
  unfold bind at 1.
  rewrite masked_update_fresh.
  2:{ cbn [pixels]. by do 2 apply zip_with_same_length. }
  cbn [pixels height width].
  unfold Spec.mask at 1 2 3. rewrite three_updates_pointwise.
  change (Grid (height lab) (width lab) _)
    with (Spec.adjusted_lab np_mean tone lab).
  unfold bind at 1.
  destruct (lab2rgb (F64 (Spec.adjusted_lab np_mean tone lab)))
    as [e|rgb] eqn:Hb.
  - rewrite (call_fresh_raises _ _ _ _ _ Hb).
    unfold bind, print, ret. cbn [heap stdout].
    by rewrite <- app_assoc.
  - rewrite (call_fresh _ _ _ _ _ Hb).
    unfold bind at 1. rewrite load_f64_fresh.
    unfold bind, alloc, ret. cbn [heap stdout].
    f_equal.
    + f_equal. rewrite !length_app. simpl. lia.
    + by rewrite <- !app_assoc.
Qed.

Lemma adjust_skin_tone_conversion_error w image tone arr e :
  heap w !! image = Some arr -> rgb2lab arr = inl e ->
  adjust_skin_tone rgb2lab lab2rgb np_mean image tone w
  = (Returned image,
     World (heap w) (stdout w ++ ["Error adjusting skin tone: " ++ e])).
Proof.
  intros Hr Hc. unfold adjust_skin_tone, try_except, bind at 1.
  by rewrite (call_raises _ _ _ _ _ Hr Hc).
Qed.

Lemma adjust_skin_tone_invalid w image tone :
  heap w !! image = None ->
  adjust_skin_tone rgb2lab lab2rgb np_mean image tone w
  = (Returned image,
     World (heap w)
       (stdout w ++ ["Error adjusting skin tone: invalid reference"])).
Proof.
  intros Hr. unfold adjust_skin_tone, try_except, bind at 1.
  by rewrite (call_invalid _ _ _ Hr).
Qed.

(** Both operations only add objects to the store. *)
Lemma detect_skin_tone_extends w image :
  exists news, heap (snd (detect_skin_tone rgb2lab np_mean image w))
               = (heap w ++ news)%list.
Proof.
  destruct (heap w !! image) as [arr|] eqn:Hr.
  - destruct (rgb2lab arr) as [e|lab] eqn:Hc.
    + rewrite (detect_skin_tone_conversion_error _ _ _ _ Hr Hc).
      exists []. cbn. by rewrite app_nil_r.
    + rewrite (detect_skin_tone_ok _ _ _ _ Hr Hc). by eexists.
  - rewrite (detect_skin_tone_invalid _ _ Hr).
    exists []. cbn. by rewrite app_nil_r.
Qed.

Lemma adjust_skin_tone_extends w image tone :
  exists news,
    heap (snd (adjust_skin_tone rgb2lab lab2rgb np_mean image tone w))
    = (heap w ++ news)%list.
Proof.
  destruct (heap w !! image) as [arr|] eqn:Hr.
  - destruct (rgb2lab arr) as [e|lab] eqn:Hc.
    + rewrite (adjust_skin_tone_conversion_error _ _ _ _ _ Hr Hc).
      exists []. cbn. by rewrite app_nil_r.
    + rewrite (adjust_skin_tone_converted _ _ _ _ _ Hr Hc).
      destruct (lab2rgb _); by eexists.
  - rewrite (adjust_skin_tone_invalid _ _ _ Hr).
    exists []. cbn. by rewrite app_nil_r.
Qed.

Lemma adjust_skin_tone_total w image tone :
  exists out,
    fst (adjust_skin_tone rgb2lab lab2rgb np_mean image tone w)
    = Returned out.
Proof.
  destruct (heap w !! image) as [arr|] eqn:Hr.
  - destruct (rgb2lab arr) as [e|lab] eqn:Hc.
    + rewrite (adjust_skin_tone_conversion_error _ _ _ _ _ Hr Hc).
      by eexists.
    + rewrite (adjust_skin_tone_converted _ _ _ _ _ Hr Hc).
      destruct (lab2rgb _); by eexists.
  - rewrite (adjust_skin_tone_invalid _ _ _ Hr). by eexists.
Qed.

End ServiceFacts.

(** * The claims *)

Section Claims.

Variable rgb2lab : ndarray -> exn + grid float.
Variable lab2rgb : ndarray -> exn + grid float.
Variable np_mean : list float -> float.

(** C1.  On a raster whose final skin mask (the strict one, or the lenient
    one when the strict count is below 100) has at least 100 true pixels,
    [detect_skin_tone] answers by the mean L of the masked pixels, through
    descending cutoffs where the first match wins: at least 75 is Fair, then
    at least 70 Light, 65 Medium, 60 Olive, 55 Tan, 50 Deep, and Dark
    otherwise.  A mean of 77 is Fair, 52 is Deep and 40 is Dark. *)
Theorem detect_skin_tone_mean_cutoffs w image arr lab :
  heap w !! image = Some arr -> rgb2lab arr = inr lab ->
  (100 <= Np.sum (Spec.final_mask lab))%Z ->
  let avg := Spec.mean_L np_mean lab (Spec.final_mask lab) in
  let result := fst (detect_skin_tone rgb2lab np_mean image w) in
  ((75 <=? avg)%float = true -> result = Returned "Fair")
  /\ ((75 <=? avg)%float = false -> (70 <=? avg)%float = true ->
      result = Returned "Light")
  /\ ((70 <=? avg)%float = false -> (65 <=? avg)%float = true ->
      result = Returned "Medium")
  /\ ((65 <=? avg)%float = false -> (60 <=? avg)%float = true ->
      result = Returned "Olive")
  /\ ((60 <=? avg)%float = false -> (55 <=? avg)%float = true ->
      result = Returned "Tan")
  /\ ((55 <=? avg)%float = false -> (50 <=? avg)%float = true ->
      result = Returned "Deep")
  /\ ((50 <=? avg)%float = false -> result = Returned "Dark")
  /\ (avg = 77%float -> result = Returned "Fair")
  /\ (avg = 52%float -> result = Returned "Deep")
  /\ (avg = 40%float -> result = Returned "Dark").
Proof.
  intros Hr Hc Hn avg result. subst result.
  rewrite (detect_skin_tone_ok _ _ _ _ _ _ Hr Hc). cbn [fst].
  unfold Spec.detected. apply Z.ltb_ge in Hn. rewrite Hn. fold avg.
  generalize avg. clear. intros avg. unfold Spec.category.
  repeat split; intros.
  1-7: split_cutoffs avg.
  all: by subst avg.
Qed.

(** C2.  [detect_skin_tone] first masks with the strict bands (L in [50,80],
    a in [5,30], b in [10,40], each test inclusive, the three conjoined);
    with at least 100 strict pixels it classifies over that mask; with fewer
    it masks again with the lenient bands (L in [30,90], a in [0,35],
    b in [5,45]) and classifies over the lenient mask if that one has at
    least 100 pixels; otherwise it returns Medium. *)
Theorem detect_skin_tone_two_pass w image arr lab :
  heap w !! image = Some arr -> rgb2lab arr = inr lab ->
  let strict := map (fun p => Spec.in_range 50 80 (sample C0 p)
                              && Spec.in_range 5 30 (sample C1 p)
                              && Spec.in_range 10 40 (sample C2 p))
                    (pixels lab) in
  let lenient := map (fun p => Spec.in_range 30 90 (sample C0 p)
                               && Spec.in_range 0 35 (sample C1 p)
                               && Spec.in_range 5 45 (sample C2 p))
                     (pixels lab) in
  let result := fst (detect_skin_tone rgb2lab np_mean image w) in
  ((100 <= Np.sum strict)%Z ->
   result = Returned (Spec.category (Spec.mean_L np_mean lab strict)))
  /\ ((Np.sum strict < 100)%Z -> (100 <= Np.sum lenient)%Z ->
      result = Returned (Spec.category (Spec.mean_L np_mean lab lenient)))
  /\ ((Np.sum strict < 100)%Z -> (Np.sum lenient < 100)%Z ->
      result = Returned "Medium").
Proof.
  intros Hr Hc strict lenient result. subst result.
  rewrite (detect_skin_tone_ok _ _ _ _ _ _ Hr Hc). cbn [fst].
  change strict with (Spec.mask Spec.strict lab).
  change lenient with (Spec.mask Spec.lenient lab).
  unfold Spec.detected, Spec.final_mask.
  repeat split.
  - intros H. apply Z.ltb_ge in H. by rewrite !H.
  - intros H1 H2. apply Z.ltb_lt in H1. apply Z.ltb_ge in H2.
    by rewrite H1, H2.
  - intros H1 H2. apply Z.ltb_lt in H1, H2. by rewrite H1, H2.
Qed.

(** C3.  [adjust_skin_tone] masks with the lenient band only, takes
    [current_l] as the mean L of the masked pixels (65 on an empty mask),
    [target_l] and the a/b offsets from the per-category tables (65 and 0
    for a string that is no category, such as "Not-A-Category"), replaces
    every masked pixel by the clipped uniform shift, and returns the
    conversion back to RGB scaled to 0..255, clipped and truncated to 8
    bits. *)
Theorem adjust_skin_tone_uniform_shift w image target_tone arr lab :
  heap w !! image = Some arr -> rgb2lab arr = inr lab ->
  let run tone := adjust_skin_tone rgb2lab lab2rgb np_mean image tone w in
  heap (snd (run target_tone)) !! S (length (heap w))
  = Some (F64 (Spec.adjusted_lab np_mean target_tone lab))
  /\ (forall rgb,
        lab2rgb (F64 (Spec.adjusted_lab np_mean target_tone lab)) = inr rgb ->
        exists out,
          fst (run target_tone) = Returned out
          /\ heap (snd (run target_tone)) !! out
             = Some (U8 (Spec.to_uint8 rgb)))
  /\ (forall rgb,
        lab2rgb (F64 (Spec.shifted np_mean 65 0 0 lab)) = inr rgb ->
        exists out,
          fst (run "Not-A-Category") = Returned out
          /\ heap (snd (run "Not-A-Category")) !! out
             = Some (U8 (Spec.to_uint8 rgb))).
Proof.
  intros Hr Hc run. subst run. cbv beta.
  rewrite !(adjust_skin_tone_converted _ _ _ _ _ _ _ _ Hr Hc).
  repeat split.
  - destruct (lab2rgb _); cbn [snd heap]; by rewrite lookup_fresh_1.
  - intros rgb ->. eexists. split; [done|]. cbn [snd heap].
    by rewrite lookup_fresh.
  - intros rgb.
    change (Spec.adjusted_lab np_mean "Not-A-Category" lab)
      with (Spec.shifted np_mean 65 0 0 lab).
    intros ->. eexists. split; [done|]. cbn [snd heap].
    by rewrite lookup_fresh.
Qed.

(** C4.  [get_color_recommendations] never fails: it returns the seven
    colours stored for the string when it is a key of the table (one of the
    seven categories), and the seven colours of Medium for any other
    string. *)
Theorem get_color_recommendations_table (skin_tone : string) :
  get_color_recommendations skin_tone = inr (Spec.palette_of skin_tone)
  /\ length (Spec.palette_of skin_tone) = 7
  /\ (forall colors,
        COLOR_RECOMMENDATIONS !! skin_tone = Some colors ->
        skin_tone ∈ SKIN_TONE_CATEGORIES
        /\ get_color_recommendations skin_tone = inr colors)
  /\ (skin_tone ∉ SKIN_TONE_CATEGORIES ->
      COLOR_RECOMMENDATIONS !! skin_tone = None
      /\ get_color_recommendations skin_tone
         = inr ["#FF6347"; "#6B8E23"; "#4169E1"; "#BA55D3"; "#20B2AA";
                "#CD5C5C"; "#DAA520"]
      /\ get_color_recommendations skin_tone
         = get_color_recommendations "Medium").
Proof.
  split; [apply get_color_recommendations_palette|]. split.
  { unfold Spec.palette_of. by repeat case_decide. }
  assert (Hkeys : forall colors,
             COLOR_RECOMMENDATIONS !! skin_tone = Some colors ->
             skin_tone ∈ SKIN_TONE_CATEGORIES).
  { intros colors. unfold COLOR_RECOMMENDATIONS, SKIN_TONE_CATEGORIES.
    cbn [list_to_map foldr uncurry].
    rewrite !lookup_insert, lookup_empty.
    repeat case_decide; subst; try done; set_solver. }
  split.
  - intros colors Hk. split; [by eapply Hkeys|].
    unfold get_color_recommendations, contains, subscript. rewrite Hk.
    by rewrite bool_decide_eq_true_2 by by eexists.
  - intros Hs. split.
    { destruct (COLOR_RECOMMENDATIONS !! skin_tone) eqn:Hk; [|done].
      exfalso. by eapply Hs, Hkeys. }
    rewrite !get_color_recommendations_palette.
    assert (Spec.palette_of skin_tone = Spec.palette_of "Medium") as ->; [|done].
    unfold Spec.palette_of at 1.
    repeat case_decide; subst; try reflexivity;
      exfalso; apply Hs; unfold SKIN_TONE_CATEGORIES; set_solver.
Qed.

(** C5.  In [adjust_skin_tone] the adjusted Lab image keeps, exactly, every
    pixel outside the lenient skin mask; hence, when the conversion back
    works pixel by pixel and the round trip of the two conversions
    reproduces every input pixel within a tolerance, every unmasked pixel of
    the returned raster is the input pixel within that tolerance. *)
Theorem adjust_skin_tone_keeps_unmasked w image target_tone arr lab :
  heap w !! image = Some arr -> rgb2lab arr = inr lab ->
  let result := adjust_skin_tone rgb2lab lab2rgb np_mean image target_tone w in
  (exists adjusted_lab,
      heap (snd result) !! S (length (heap w)) = Some (F64 adjusted_lab)
      /\ forall (k : nat) (p : px float),
          pixels lab !! k = Some p ->
          Spec.in_band Spec.lenient p = false ->
          pixels adjusted_lab !! k = Some p)
  /\ (forall (raster : grid Z) (lab2rgb_px : px float -> px float) (tol : Z),
        arr = U8 raster ->
        (forall im, lab2rgb (F64 im)
                    = inr (Grid (height im) (width im)
                                (map lab2rgb_px (pixels im)))) ->
        (forall (k : nat) (p : px Z) (q : px float),
            pixels raster !! k = Some p -> pixels lab !! k = Some q ->
            Spec.close tol (Spec.quantize_px (lab2rgb_px q)) p) ->
        exists out adjusted_rgb,
          fst result = Returned out
          /\ heap (snd result) !! out = Some (U8 adjusted_rgb)
          /\ forall (k : nat) (p : px Z) (q : px float),
              pixels raster !! k = Some p -> pixels lab !! k = Some q ->
              Spec.in_band Spec.lenient q = false ->
              exists p', pixels adjusted_rgb !! k = Some p'
                         /\ Spec.close tol p' p).
Proof.
  intros Hr Hc result. subst result.
  rewrite (adjust_skin_tone_converted _ _ _ _ _ _ _ _ Hr Hc).
  split.
  - exists (Spec.adjusted_lab np_mean target_tone lab). split.
    + destruct (lab2rgb _); cbn [snd heap]; by rewrite lookup_fresh_1.
    + intros k p Hk Hout.
      unfold Spec.adjusted_lab, Spec.shifted. cbn [pixels].
      rewrite list_lookup_fmap, Hk. cbn.
      by rewrite shift_px_outside.
  - intros raster g tol -> Hpx Hrt. rewrite Hpx.
    eexists _, _. split; [done|]. split.
    { cbn [snd heap]. by rewrite lookup_fresh. }
    intros k p q Hp Hq Hout. cbn [Spec.to_uint8 pixels].
    unfold Spec.adjusted_lab, Spec.shifted. cbn [pixels].
    rewrite !list_lookup_fmap, Hq. cbn.
    rewrite shift_px_outside by done.
    eexists. split; [done|]. by apply (Hrt k).
Qed.

(** C6.  Neither operation raises.  [detect_skin_tone] always returns one of
    the seven categories, and Medium when the conversion raises;
    [adjust_skin_tone] always returns an array, the input array itself when
    a conversion raises, and on every path the input array is left as it
    was. *)
Theorem service_never_raises w image target_tone :
  (exists category,
      fst (detect_skin_tone rgb2lab np_mean image w) = Returned category
      /\ category ∈ SKIN_TONE_CATEGORIES)
  /\ (forall arr e,
        heap w !! image = Some arr -> rgb2lab arr = inl e ->
        fst (detect_skin_tone rgb2lab np_mean image w) = Returned "Medium")
  /\ (exists out,
        fst (adjust_skin_tone rgb2lab lab2rgb np_mean image target_tone w)
        = Returned out)
  /\ (forall arr e,
        heap w !! image = Some arr ->
        (rgb2lab arr = inl e
         \/ exists lab,
             rgb2lab arr = inr lab
             /\ lab2rgb (F64 (Spec.adjusted_lab np_mean target_tone lab))
                = inl e) ->
        fst (adjust_skin_tone rgb2lab lab2rgb np_mean image target_tone w)
        = Returned image)
  /\ (forall arr,
        heap w !! image = Some arr ->
        heap (snd (adjust_skin_tone rgb2lab lab2rgb np_mean image
                     target_tone w)) !! image
        = Some arr).
Proof.
  repeat split.
  - destruct (heap w !! image) as [arr|] eqn:Hr.
    + destruct (rgb2lab arr) as [e|lab] eqn:Hc.
      * rewrite (detect_skin_tone_conversion_error _ _ _ _ _ _ Hr Hc).
        eexists. split; [done|]. unfold SKIN_TONE_CATEGORIES. set_solver.
      * rewrite (detect_skin_tone_ok _ _ _ _ _ _ Hr Hc).
        eexists. split; [done|]. apply detected_in_categories.
    + rewrite (detect_skin_tone_invalid _ _ _ _ Hr).
      eexists. split; [done|]. unfold SKIN_TONE_CATEGORIES. set_solver.
  - intros arr e Hr Hc.
    by rewrite (detect_skin_tone_conversion_error _ _ _ _ _ _ Hr Hc).
  - apply adjust_skin_tone_total.
  - intros arr e Hr [Hc|(lab & Hc & Hb)].
    + by rewrite (adjust_skin_tone_conversion_error _ _ _ _ _ _ _ _ Hr Hc).
    + by rewrite (adjust_skin_tone_converted _ _ _ _ _ _ _ _ Hr Hc), Hb.
  - intros arr Hr.
    destruct (adjust_skin_tone_extends rgb2lab lab2rgb np_mean w image
                target_tone) as [news ->].
    by apply lookup_app_l_Some.
Qed.

(** C7.  On every Lab image the lenient mask has at least as many true
    pixels as the strict mask, because every pixel of the strict mask is a
    pixel of the lenient mask. *)
Theorem lenient_mask_count_ge_strict (lab_image : grid float) :
  (Np.sum (threshold_mask (50, 80)%float (5, 30)%float (10, 40)%float
                          lab_image)
   <= Np.sum (threshold_mask (30, 90)%float (0, 35)%float (5, 45)%float
                             lab_image))%Z
  /\ (forall k : nat,
        threshold_mask (50, 80)%float (5, 30)%float (10, 40)%float lab_image
          !! k = Some true ->
        threshold_mask (30, 90)%float (0, 35)%float (5, 45)%float lab_image
          !! k = Some true).
Proof.
  fold_bands lab_image. split.
  - apply mask_sum_strict_le_lenient.
  - intros k. unfold Spec.mask. rewrite !list_lookup_fmap.
    destruct (pixels lab_image !! k) as [p|]; [|done]. cbn.
    intros [= H]. by rewrite (strict_in_lenient _ H).
Qed.

(** C8.  The two operations are deterministic and keep no state: run on the
    same raster (and target), in any two stores and whatever was printed
    before, they return the same category and arrays with the same
    contents; a call changes no object that existed before it, and a call
    made after another one answers as the first. *)
Theorem service_deterministic w1 w2 image1 image2 arr target_tone :
  heap w1 !! image1 = Some arr -> heap w2 !! image2 = Some arr ->
  let detect := detect_skin_tone rgb2lab np_mean in
  let adjust := fun image =>
    adjust_skin_tone rgb2lab lab2rgb np_mean image target_tone in
  fst (detect image1 w1) = fst (detect image2 w2)
  /\ (exists out1 out2 adjusted,
         fst (adjust image1 w1) = Returned out1
         /\ fst (adjust image2 w2) = Returned out2
         /\ heap (snd (adjust image1 w1)) !! out1 = Some adjusted
         /\ heap (snd (adjust image2 w2)) !! out2 = Some adjusted)
  /\ (forall r v,
         heap w1 !! r = Some v ->
         heap (snd (detect image1 w1)) !! r = Some v
         /\ heap (snd (adjust image1 w1)) !! r = Some v)
  /\ fst (detect image1 (snd (detect image1 w1))) = fst (detect image1 w1)
  /\ fst (detect image1 (snd (adjust image1 w1))) = fst (detect image1 w1).
Proof.
  intros H1 H2 detect adjust. subst detect adjust. cbv beta.
  assert (Hdet : forall w w' i i',
             heap w !! i = Some arr -> heap w' !! i' = Some arr ->
             fst (detect_skin_tone rgb2lab np_mean i w)
             = fst (detect_skin_tone rgb2lab np_mean i' w')).
  { intros w w' i i' Hi Hi'. destruct (rgb2lab arr) as [e|lab] eqn:Hc.
    - by rewrite !(detect_skin_tone_conversion_error _ _ _ _ _ e)
        by eassumption.
    - by rewrite !(detect_skin_tone_ok _ _ _ _ _ lab) by eassumption. }
  assert (Hframe_d : forall r v,
             heap w1 !! r = Some v ->
             heap (snd (detect_skin_tone rgb2lab np_mean image1 w1)) !! r
             = Some v).
  { intros r v Hv.
    destruct (detect_skin_tone_extends rgb2lab np_mean w1 image1)
      as [news ->].
    by apply lookup_app_l_Some. }
  assert (Hframe_a : forall r v,
             heap w1 !! r = Some v ->
             heap (snd (adjust_skin_tone rgb2lab lab2rgb np_mean image1
                          target_tone w1)) !! r
             = Some v).
  { intros r v Hv.
    destruct (adjust_skin_tone_extends rgb2lab lab2rgb np_mean w1 image1
                target_tone) as [news ->].
    by apply lookup_app_l_Some. }
  repeat split.
  - by apply Hdet.
  - destruct (rgb2lab arr) as [e|lab] eqn:Hc.
    + rewrite (adjust_skin_tone_conversion_error _ _ _ _ _ _ _ e H1 Hc).
      rewrite (adjust_skin_tone_conversion_error _ _ _ _ _ _ _ e H2 Hc).
      by exists image1, image2, arr.
    + rewrite (adjust_skin_tone_converted _ _ _ _ _ _ _ lab H1 Hc).
      rewrite (adjust_skin_tone_converted _ _ _ _ _ _ _ lab H2 Hc).
      destruct (lab2rgb _) as [e|rgb].
      * exists image1, image2, arr. cbn [fst snd heap].
        repeat split; by apply lookup_app_l_Some.
      * eexists _, _, _. cbn [fst snd heap].
        repeat split; by rewrite lookup_fresh.
  - by apply Hframe_d.
  - by apply Hframe_a.
  - apply Hdet; [by apply Hframe_d | done].
  - apply Hdet; [by apply Hframe_a | done].
Qed.

(** C9.  On a raster without a pixel in either threshold band (a uniform
    pure-blue raster is one, under the CIE conversion) [detect_skin_tone]
    returns Medium. *)
Theorem detect_skin_tone_no_skin w image arr :
  heap w !! image = Some arr ->
  (forall lab,
      rgb2lab arr = inr lab ->
      Forall (fun p => Spec.in_band Spec.strict p = false
                       /\ Spec.in_band Spec.lenient p = false)
             (pixels lab)) ->
  fst (detect_skin_tone rgb2lab np_mean image w) = Returned "Medium".
Proof.
  intros Hr Hout. destruct (rgb2lab arr) as [e|lab] eqn:Hc.
  - by rewrite (detect_skin_tone_conversion_error _ _ _ _ _ _ Hr Hc).
  - rewrite (detect_skin_tone_ok _ _ _ _ _ _ Hr Hc). cbn [fst].
    specialize (Hout lab eq_refl).
    unfold Spec.detected, Spec.final_mask.
    assert (Hs : Np.sum (Spec.mask Spec.strict lab) = 0%Z).
    { apply sum_all_false. unfold Spec.mask. apply Forall_fmap.
      eapply Forall_impl; [exact Hout|]. by intros p [? ?]. }
    assert (Hl : Np.sum (Spec.mask Spec.lenient lab) = 0%Z).
    { apply sum_all_false. unfold Spec.mask. apply Forall_fmap.
      eapply Forall_impl; [exact Hout|]. by intros p [? ?]. }
    rewrite Hs. cbn. by rewrite Hl.
Qed.

(** C10.  Category names are matched exactly, letter case included: for a
    string that is a category name only up to letter case (such as "fair"
    or "MEDIUM") [get_color_recommendations] returns the palette of Medium,
    and [adjust_skin_tone] shifts with [target_l] = 65 and zero a/b
    offsets. *)
Theorem category_lookup_is_case_sensitive (s : string) :
  Spec.differs_only_in_case s = true ->
  get_color_recommendations s = get_color_recommendations "Medium"
  /\ (forall w image arr lab,
         heap w !! image = Some arr -> rgb2lab arr = inr lab ->
         heap (snd (adjust_skin_tone rgb2lab lab2rgb np_mean image s w))
           !! S (length (heap w))
         = Some (F64 (Spec.shifted np_mean 65 0 0 lab))
         /\ forall rgb,
             lab2rgb (F64 (Spec.shifted np_mean 65 0 0 lab)) = inr rgb ->
             exists out,
               fst (adjust_skin_tone rgb2lab lab2rgb np_mean image s w)
               = Returned out
               /\ heap (snd (adjust_skin_tone rgb2lab lab2rgb np_mean
                               image s w)) !! out
                  = Some (U8 (Spec.to_uint8 rgb)))
  /\ Spec.differs_only_in_case "fair" = true
  /\ Spec.differs_only_in_case "MEDIUM" = true.
Proof.
  intros [Hs _]%andb_prop. apply negb_true_iff, bool_decide_eq_false in Hs.
  assert (Hspec : Spec.adjusted_lab np_mean s = Spec.shifted np_mean 65 0 0).
  { unfold Spec.adjusted_lab, Spec.target_l, Spec.a_offset, Spec.b_offset.
    repeat case_decide; subst; try reflexivity;
      exfalso; apply Hs; unfold SKIN_TONE_CATEGORIES; set_solver. }
  split; [|split; [|done]].
  - rewrite !get_color_recommendations_palette. f_equal.
    unfold Spec.palette_of at 1.
    repeat case_decide; subst; try reflexivity;
      exfalso; apply Hs; unfold SKIN_TONE_CATEGORIES; set_solver.
  - intros w image arr lab Hr Hc.
    rewrite (adjust_skin_tone_converted _ _ _ _ _ _ _ _ Hr Hc), Hspec.
    split.
    + destruct (lab2rgb _); cbn [snd heap]; by rewrite lookup_fresh_1.
    + intros rgb ->. eexists. split; [done|]. cbn [snd heap].
      by rewrite lookup_fresh.
Qed.

End Claims.

(** * The claims on concrete rasters *)

(** 100 pixels of lightness 77 inside the strict band: Fair. *)
Lemma detect_skin_tone_mean_cutoffs_witness :
  fst (detect_skin_tone Sample.as_lab Sample.seq_mean 0 Sample.fair_world)
  = Returned "Fair".
Proof.
  pose proof (detect_skin_tone_mean_cutoffs Sample.as_lab Sample.seq_mean
                Sample.fair_world 0 _ _ eq_refl eq_refl) as H.
  cbv zeta in H. destruct H as [H _].
  - vm_compute. discriminate.
  - apply H. vm_compute. reflexivity.
Defined.

(** Two pixels: both masks stay below 100 pixels, the answer is Medium. *)
Lemma detect_skin_tone_two_pass_witness :
  fst (detect_skin_tone Sample.as_lab Sample.seq_mean 0
         Sample.two_pixel_world)
  = Returned "Medium".
Proof.
  pose proof (detect_skin_tone_two_pass Sample.as_lab Sample.seq_mean
                Sample.two_pixel_world 0 _ _ eq_refl eq_refl) as H.
  cbv zeta in H. destruct H as (_ & _ & H).
  apply H; vm_compute; reflexivity.
Defined.

(** Towards Dark: the skin pixel (77, 10, 20) moves to (45, 14, 26), the
    blue pixel stays. *)
Lemma adjust_skin_tone_uniform_shift_witness :
  exists out,
    fst (adjust_skin_tone Sample.as_lab Sample.as_rgb Sample.seq_mean 0
           "Dark" Sample.two_pixel_world) = Returned out
    /\ heap (snd (adjust_skin_tone Sample.as_lab Sample.as_rgb
                    Sample.seq_mean 0 "Dark" Sample.two_pixel_world)) !! out
       = Some (U8 (Grid 1 2 [(45, 14, 26); (0, 0, 255)]%Z)).
Proof.
  pose proof (adjust_skin_tone_uniform_shift Sample.as_lab Sample.as_rgb
                Sample.seq_mean Sample.two_pixel_world 0 "Dark" _ _
                eq_refl eq_refl) as H.
  cbv zeta in H. destruct H as (_ & H & _).
  destruct (H _ eq_refl) as (out & Hout & Hheap).
  exists out. split; [exact Hout|]. rewrite Hheap. vm_compute. reflexivity.
Defined.

(** The blue pixel of the two-pixel raster is outside the mask and comes
    back within one unit per channel. *)
Lemma adjust_skin_tone_keeps_unmasked_witness :
  exists out adjusted_rgb,
    fst (adjust_skin_tone Sample.as_lab Sample.as_rgb Sample.seq_mean 0
           "Dark" Sample.two_pixel_world) = Returned out
    /\ heap (snd (adjust_skin_tone Sample.as_lab Sample.as_rgb
                    Sample.seq_mean 0 "Dark" Sample.two_pixel_world)) !! out
       = Some (U8 adjusted_rgb)
    /\ exists p', pixels adjusted_rgb !! 1%nat = Some p'
                  /\ Spec.close 1 p' (0, 0, 255)%Z.
Proof.
  pose proof (adjust_skin_tone_keeps_unmasked Sample.as_lab Sample.as_rgb
                Sample.seq_mean Sample.two_pixel_world 0 "Dark" _ _
                eq_refl eq_refl) as H.
  cbv zeta in H. destruct H as [_ H].
  destruct (H _ (fun p => (sample C0 p / 255, sample C1 p / 255,
                           sample C2 p / 255)%float) 1%Z eq_refl)
    as (out & res & Hout & Hheap & Hpx).
  - intros im. reflexivity.
  - intros [|[|k]] p q; cbn; intros Hp Hq; try discriminate;
      injection Hp as <-; injection Hq as <-; vm_compute;
      repeat split; discriminate.
  - exists out, res. split; [exact Hout|]. split; [exact Hheap|].
    apply (Hpx 1%nat (0, 0, 255)%Z (0, 0, 255)%float); reflexivity.
Defined.

(** With a conversion that raises: Medium, and the input array itself. *)
Lemma service_never_raises_witness :
  fst (detect_skin_tone Sample.failing Sample.seq_mean 0 Sample.fair_world)
  = Returned "Medium"
  /\ fst (adjust_skin_tone Sample.failing Sample.as_rgb Sample.seq_mean 0
            "Dark" Sample.fair_world) = Returned 0%nat.
Proof.
  pose proof (service_never_raises Sample.failing Sample.as_rgb
                Sample.seq_mean Sample.fair_world 0 "Dark")
    as (_ & Hd & _ & Ha & _).
  split.
  - apply (Hd _ _ eq_refl eq_refl).
  - eapply Ha; [reflexivity|]. left. reflexivity.
Defined.

(** The same raster behind two references of two stores. *)
Lemma service_deterministic_witness :
  fst (detect_skin_tone Sample.as_lab Sample.seq_mean 0 Sample.fair_world)
  = fst (detect_skin_tone Sample.as_lab Sample.seq_mean 1 Sample.busy_world).
Proof.
  pose proof (service_deterministic Sample.as_lab Sample.as_rgb
                Sample.seq_mean Sample.fair_world Sample.busy_world
                0 1 _ "Dark" eq_refl eq_refl) as H.
  cbv zeta in H. destruct H as [H _]. exact H.
Defined.

(** The uniform pure-blue raster. *)
Lemma detect_skin_tone_no_skin_witness :
  fst (detect_skin_tone Sample.blue_lab Sample.seq_mean 0 Sample.blue_world)
  = Returned "Medium".
Proof.
  apply (detect_skin_tone_no_skin Sample.blue_lab Sample.seq_mean
           Sample.blue_world 0 _ eq_refl).
  intros lab Hlab. injection Hlab as <-. vm_compute.
  repeat constructor.
Defined.

(** "fair" gets the palette of Medium, not the one of "Fair". *)
Lemma category_lookup_is_case_sensitive_witness :
  get_color_recommendations "fair" = get_color_recommendations "Medium"
  /\ get_color_recommendations "fair" <> get_color_recommendations "Fair".
Proof.
  split.
  - apply (category_lookup_is_case_sensitive Sample.as_lab Sample.as_rgb
             Sample.seq_mean "fair" eq_refl).
  - vm_compute. discriminate.
Defined.

(** * Further properties *)

Local Open Scope list_scope.
Local Open Scope page_scope.

(** ** More of the order of binary64 *)

Lemma SFcompare_refl (x : spec_float) :
  x <> S754_nan -> SFcompare x x = Some Eq.
Proof.
  destruct x as [s|s| |s m e]; try done; intros _; destruct s; cbn;
    try done; rewrite Z.compare_refl;
    change (PosDef.Pos.compare_cont Eq m m) with (Pos.compare m m);
    by rewrite Pos.compare_refl.
Qed.

Lemma SFleb_not_nan (x y : spec_float) :
  SFleb x y = true -> x <> S754_nan /\ y <> S754_nan.
Proof. unfold SFleb. by destruct x, y. Qed.

Lemma SFltb_leb (x y : spec_float) : SFltb x y = true -> SFleb x y = true.
Proof. unfold SFltb, SFleb. by destruct (SFcompare x y) as [[]|]. Qed.

Lemma ltb_leb (x y : float) :
  PrimFloat.ltb x y = true -> PrimFloat.leb x y = true.
Proof. rewrite ltb_spec, leb_spec. apply SFltb_leb. Qed.

Lemma leb_refl_l (x y : float) :
  PrimFloat.leb x y = true -> PrimFloat.leb x x = true.
Proof.
  rewrite !leb_spec. intros [H _]%SFleb_not_nan.
  unfold SFleb. by rewrite SFcompare_refl.
Qed.

Lemma leb_refl_r (x y : float) :
  PrimFloat.leb x y = true -> PrimFloat.leb y y = true.
Proof.
  rewrite !leb_spec. intros [_ H]%SFleb_not_nan.
  unfold SFleb. by rewrite SFcompare_refl.
Qed.

Lemma leb_refl_is_nan (x : float) :
  PrimFloat.leb x x = true -> PrimFloat.is_nan x = false.
Proof.
  unfold PrimFloat.is_nan. rewrite leb_spec, FloatAxioms.eqb_spec.
  intros [H _]%SFleb_not_nan. unfold SFeqb. by rewrite SFcompare_refl.
Qed.

(** [np.clip] lands in the interval, unless its argument is NaN. *)
Lemma clip_in_range (x lo hi : float) :
  PrimFloat.is_nan x = false -> PrimFloat.leb lo hi = true ->
  PrimFloat.leb lo (Np.clip x lo hi) = true
  /\ PrimFloat.leb (Np.clip x lo hi) hi = true.
Proof.
  intros Hx Hb. unfold Np.clip, Np.maximum. rewrite Hx.
  assert (Hlo := leb_refl_l _ _ Hb). assert (Hhi := leb_refl_r _ _ Hb).
  assert (Hm : exists m, (if PrimFloat.ltb lo x then x else lo) = m
                         /\ PrimFloat.leb lo m = true
                         /\ PrimFloat.is_nan m = false).
  { destruct (PrimFloat.ltb lo x) eqn:E; eexists; split; try done.
    - split; [by apply ltb_leb|done].
    - split; [done|by apply leb_refl_is_nan]. }
  destruct Hm as (m & -> & Hm & Hn). unfold Np.minimum. rewrite Hn.
  destruct (PrimFloat.ltb m hi) eqn:E.
  - split; [done|by apply ltb_leb].
  - done.
Qed.

Lemma clip_nan (x lo hi : float) :
  PrimFloat.is_nan x = true -> Np.clip x lo hi = x.
Proof. intros H. unfold Np.clip, Np.maximum, Np.minimum. by rewrite H, H. Qed.

Lemma digits2_pos_size (m : positive) : digits2_pos m = Pos.size m.
Proof. induction m; simpl; congruence. Qed.

Lemma valid_mantissa_bound (s : bool) (m : positive) (e : Z) :
  valid_binary (S754_finite s m e) = true -> (Z.pos m < 2 ^ 53)%Z.
Proof.
  unfold SpecFloat.valid_binary, bounded, canonical_mantissa, fexp.
  intros [H _]%andb_prop. apply Z.eqb_eq in H.
  rewrite digits2_pos_size in H.
  assert (Hs : (Z.pos (Pos.size m) <= 53)%Z).
  { unfold prec in H. lia. }
  pose proof (Pos.size_gt m) as Hgt.
  assert (Hp : (Z.pos m < 2 ^ Z.pos (Pos.size m))%Z).
  { rewrite <- Pos2Z.inj_pow. lia. }
  eapply Z.lt_le_trans; [exact Hp|].
  apply Z.pow_le_mono_r; lia.
Qed.

Lemma scaled_mantissa_le (m : positive) (e : Z) :
  (Z.pos m < 2 ^ 53)%Z -> (e < -45)%Z -> (Z.pos m / 2 ^ (- e) <= 255)%Z.
Proof.
  intros Hm He.
  assert (H46 : (2 ^ 46 <= 2 ^ (- e))%Z) by (apply Z.pow_le_mono_r; lia).
  assert (Hpos : (0 < 2 ^ (- e))%Z) by (apply Z.pow_pos_nonneg; lia).
  apply Z.div_le_upper_bound; [done|].
  change (2 ^ 53)%Z with (128 * 2 ^ 46)%Z in Hm.
  generalize dependent (2 ^ (- e))%Z. generalize dependent (2 ^ 46)%Z.
  intros a Ha b Hb Hab. nia.
Qed.

Lemma SFleb_finite_pos (m m' : positive) (e e' : Z) :
  SFleb (S754_finite false m e) (S754_finite false m' e') = true ->
  (e < e')%Z \/ (e = e' /\ (m <= m')%positive).
Proof.
  unfold SFleb, SFcompare.
  change (PosDef.Pos.compare_cont Eq m m') with (Pos.compare m m').
  destruct (Z.compare_spec e e') as [Heq|Hlt|Hgt].
  - destruct (Pos.compare_spec m m') as [Hm|Hm|Hm]; intros H.
    + right. split; [exact Heq|]. rewrite Hm. apply Pos.le_refl.
    + right. split; [exact Heq|]. apply Pos.lt_le_incl, Hm.
    + discriminate H.
  - intros _. left. exact Hlt.
  - intros H. discriminate H.
Qed.

Lemma SFleb_zero_finite (s : bool) (m : positive) (e : Z) :
  SFleb (S754_zero false) (S754_finite s m e) = true -> s = false.
Proof. unfold SFleb, SFcompare. destruct s; [intros H; discriminate H|reflexivity]. Qed.

Lemma trunc_range (x : float) :
  PrimFloat.leb 0 x = true -> PrimFloat.leb x 255 = true ->
  (0 <= Np.trunc x <= 255)%Z.
Proof.
  intros H0 H255. rewrite leb_spec in H0, H255.
  pose proof (Prim2SF_valid x) as Hv.
  replace (Prim2SF 0) with (S754_zero false) in H0
    by (vm_compute; reflexivity).
  replace (Prim2SF 255) with (S754_finite false 8972014882652160 (-45))
    in H255 by (vm_compute; reflexivity).
  unfold Np.trunc.
  destruct (Prim2SF x) as [s|s| |s m e].
  1-3: split; [apply Z.le_refl|discriminate].
  apply valid_mantissa_bound in Hv.
  apply SFleb_zero_finite in H0. subst s.
  apply SFleb_finite_pos in H255.
  cbv zeta.
  destruct H255 as [He|[He Hm]].
  - assert (E : (0 <=? e)%Z = false) by (apply Z.leb_gt; lia).
    rewrite E. split.
    + apply Z.div_pos; [apply Pos2Z.is_nonneg|]. apply Z.pow_pos_nonneg; lia.
    + apply scaled_mantissa_le; assumption.
  - subst e. change (0 <=? -45)%Z with false. cbv iota.
    change (- -45)%Z with 45%Z.
    assert (Hp : (0 < 2 ^ 45)%Z) by (vm_compute; reflexivity).
    split.
    + apply Z.div_pos; [apply Pos2Z.is_nonneg|exact Hp].
    + apply Z.div_le_upper_bound; [exact Hp|].
      apply Pos2Z.pos_le_pos in Hm.
      eapply Z.le_trans; [exact Hm|]. vm_compute. discriminate.
Qed.

(** ** More on the skin tone service *)

Lemma category_has_palette (c : string) :
  c ∈ SKIN_TONE_CATEGORIES ->
  exists colors, COLOR_RECOMMENDATIONS !! c = Some colors
                 /\ get_color_recommendations c = inr colors.
Proof.
  unfold SKIN_TONE_CATEGORIES. intros H.
  repeat match goal with
         | H : _ ∈ _ :: _ |- _ => apply elem_of_cons in H; destruct H as [->|H]
         | H : _ ∈ [] |- _ => by apply elem_of_nil in H
         end; eexists; split; reflexivity.
Qed.

Lemma shifted_nothing_masked mean tl ao bo lab :
  Forall (fun p => Spec.in_band Spec.lenient p = false) (pixels lab) ->
  Spec.shifted mean tl ao bo lab = lab.
Proof.
  intros H. unfold Spec.shifted.
  generalize (Np.float_of_Z tl - Spec.current_l mean lab)%float.
  intros dl. destruct lab as [h w buf]. cbn in *.
  f_equal. induction H as [|p l Hp _ IH]; [done|].
  cbn. by rewrite shift_px_outside, IH.
Qed.

Section ToneFacts.

Variable rgb2lab : ndarray -> exn + grid float.
Variable lab2rgb : ndarray -> exn + grid float.
Variable np_mean : list float -> float.

Lemma detect_skin_tone_total w image :
  exists category,
    fst (detect_skin_tone rgb2lab np_mean image w) = Returned category
    /\ category ∈ SKIN_TONE_CATEGORIES.
Proof.
  destruct (heap w !! image) as [arr|] eqn:Hr.
  - destruct (rgb2lab arr) as [e|lab] eqn:Hc.
    + rewrite (detect_skin_tone_conversion_error _ _ _ _ _ _ Hr Hc).
      eexists. split; [done|]. unfold SKIN_TONE_CATEGORIES. repeat constructor.
    + rewrite (detect_skin_tone_ok _ _ _ _ _ _ Hr Hc).
      eexists. split; [done|]. apply detected_in_categories.
  - rewrite (detect_skin_tone_invalid _ _ _ _ Hr).
    eexists. split; [done|]. unfold SKIN_TONE_CATEGORIES. repeat constructor.
Qed.

(** X2.  The palette lookup after a detection never takes its fallback
    branch: whatever the raster, the category that [detect_skin_tone]
    returns is a key of [COLOR_RECOMMENDATIONS] and the lookup returns the
    colours stored under it. *)
Theorem detected_tone_has_its_own_palette w image :
  exists category colors,
    fst (detect_skin_tone rgb2lab np_mean image w) = Returned category
    /\ COLOR_RECOMMENDATIONS !! category = Some colors
    /\ get_color_recommendations category = inr colors.
Proof.
  destruct (detect_skin_tone_total w image) as (c & Hc & Hin).
  destruct (category_has_palette c Hin) as (colors & H1 & H2).
  by exists c, colors.
Qed.

(** X3.  When no pixel of the converted image is in the lenient band,
    [adjust_skin_tone] does the same for every target tone, and the adjusted
    Lab image is the Lab image. *)
Theorem adjust_skin_tone_without_skin w image arr lab tone1 tone2 :
  heap w !! image = Some arr -> rgb2lab arr = inr lab ->
  Forall (fun p => Spec.in_band Spec.lenient p = false) (pixels lab) ->
  adjust_skin_tone rgb2lab lab2rgb np_mean image tone1 w
  = adjust_skin_tone rgb2lab lab2rgb np_mean image tone2 w
  /\ heap (snd (adjust_skin_tone rgb2lab lab2rgb np_mean image tone1 w))
       !! S (length (heap w))
     = Some (F64 lab).
Proof.
  intros Hr Hc Hout.
  rewrite !(adjust_skin_tone_converted _ _ _ _ _ _ _ _ Hr Hc).
  unfold Spec.adjusted_lab. rewrite !shifted_nothing_masked by done.
  split; [done|].
  destruct (lab2rgb _); cbn [snd heap]; by rewrite lookup_fresh_1.
Qed.

(** X4.  [detect_skin_tone] and [adjust_skin_tone] print nothing unless a
    conversion raised; then they print one line, the error message after a
    fixed prefix. *)
Theorem service_prints_only_on_failure w image target_tone arr :
  heap w !! image = Some arr ->
  stdout (snd (detect_skin_tone rgb2lab np_mean image w))
  = match rgb2lab arr with
    | inr _ => stdout w
    | inl e => (stdout w ++ ["Error in skin tone detection: " +:+ e])%list
    end
  /\ stdout (snd (adjust_skin_tone rgb2lab lab2rgb np_mean image
                    target_tone w))
     = match rgb2lab arr with
       | inl e => (stdout w ++ ["Error adjusting skin tone: " +:+ e])%list
       | inr lab =>
           match lab2rgb (F64 (Spec.adjusted_lab np_mean target_tone lab)) with
           | inl e => (stdout w ++ ["Error adjusting skin tone: " +:+ e])%list
           | inr _ => stdout w
           end
       end.
Proof.
  intros Hr. destruct (rgb2lab arr) as [e|lab] eqn:Hc.
  - by rewrite (detect_skin_tone_conversion_error _ _ _ _ _ _ Hr Hc),
      (adjust_skin_tone_conversion_error _ _ _ _ _ _ _ _ Hr Hc).
  - rewrite (detect_skin_tone_ok _ _ _ _ _ _ Hr Hc),
      (adjust_skin_tone_converted _ _ _ _ _ _ _ _ Hr Hc).
    by destruct (lab2rgb _).
Qed.

(** X5.  The target lightness of each category lies in the classifier's bin
    for that category: a raster whose masked mean L is the target of
    category [c] is classified as [c]. *)
Theorem target_lightness_classifies_as_its_category c w image arr lab :
  c ∈ SKIN_TONE_CATEGORIES ->
  heap w !! image = Some arr -> rgb2lab arr = inr lab ->
  (100 <= Np.sum (Spec.final_mask lab))%Z ->
  Spec.mean_L np_mean lab (Spec.final_mask lab)
  = Np.float_of_Z (Spec.target_l c) ->
  fst (detect_skin_tone rgb2lab np_mean image w) = Returned c.
Proof.
  intros Hin Hr Hc Hn Hmean.
  rewrite (detect_skin_tone_ok _ _ _ _ _ _ Hr Hc). cbn [fst].
  unfold Spec.detected. apply Z.ltb_ge in Hn. rewrite Hn, Hmean.
  unfold SKIN_TONE_CATEGORIES in Hin.
  repeat match goal with
         | H : _ ∈ _ :: _ |- _ => apply elem_of_cons in H; destruct H as [->|H]
         | H : _ ∈ [] |- _ => by apply elem_of_nil in H
         end; reflexivity.
Qed.

(** X6.  The adjusted Lab image has the shape of the Lab image, and each of
    its masked pixels has L in [0,100] and a, b in [-127,127], unless the
    shifted sample is NaN. *)
Theorem adjusted_lab_stays_in_range w image target_tone arr lab :
  heap w !! image = Some arr -> rgb2lab arr = inr lab ->
  exists adjusted_lab,
    heap (snd (adjust_skin_tone rgb2lab lab2rgb np_mean image target_tone w))
      !! S (length (heap w)) = Some (F64 adjusted_lab)
    /\ height adjusted_lab = height lab
    /\ width adjusted_lab = width lab
    /\ length (pixels adjusted_lab) = length (pixels lab)
    /\ forall (k : nat) (p : px float),
        pixels lab !! k = Some p ->
        Spec.in_band Spec.lenient p = true ->
        exists q,
          pixels adjusted_lab !! k = Some q
          /\ (PrimFloat.is_nan (sample C0 q) = true
              \/ Spec.in_range 0 100 (sample C0 q) = true)
          /\ (PrimFloat.is_nan (sample C1 q) = true
              \/ Spec.in_range (-127) 127 (sample C1 q) = true)
          /\ (PrimFloat.is_nan (sample C2 q) = true
              \/ Spec.in_range (-127) 127 (sample C2 q) = true).
Proof.
  intros Hr Hc. exists (Spec.adjusted_lab np_mean target_tone lab).
  rewrite (adjust_skin_tone_converted _ _ _ _ _ _ _ _ Hr Hc).
  split.
  { destruct (lab2rgb _); cbn [snd heap]; by rewrite lookup_fresh_1. }
  unfold Spec.adjusted_lab, Spec.shifted. cbn [height width pixels].
  repeat split; [by rewrite length_map|].
  intros k p Hk Hin. rewrite list_lookup_fmap, Hk. cbn.
  eexists. split; [done|]. unfold Spec.shift_px. rewrite Hin.
  cbn [sample]. unfold Spec.in_range.
  assert (Hclip : forall x lo hi,
             PrimFloat.leb lo hi = true ->
             PrimFloat.is_nan (Np.clip x lo hi) = true
             \/ PrimFloat.leb lo (Np.clip x lo hi)
                && PrimFloat.leb (Np.clip x lo hi) hi = true).
  { intros x lo hi Hb. destruct (PrimFloat.is_nan x) eqn:Hx.
    - left. by rewrite clip_nan.
    - right. destruct (clip_in_range x lo hi Hx Hb) as [-> ->]. done. }
  repeat split; by apply Hclip.
Qed.

(** X7.  The raster that [adjust_skin_tone] returns has the shape of the
    converted image, and each sample is the truncation of the sample scaled
    by 255 and clipped to [0,255]: it lies in 0..255 and the cast to 8 bits
    never wraps. *)
Theorem returned_raster_is_clipped_not_wrapped w image target_tone arr lab rgb :
  heap w !! image = Some arr -> rgb2lab arr = inr lab ->
  lab2rgb (F64 (Spec.adjusted_lab np_mean target_tone lab)) = inr rgb ->
  exists out adjusted_rgb,
    fst (adjust_skin_tone rgb2lab lab2rgb np_mean image target_tone w)
    = Returned out
    /\ heap (snd (adjust_skin_tone rgb2lab lab2rgb np_mean image
                    target_tone w)) !! out
       = Some (U8 adjusted_rgb)
    /\ height adjusted_rgb = height rgb
    /\ width adjusted_rgb = width rgb
    /\ length (pixels adjusted_rgb) = length (pixels rgb)
    /\ forall (k : nat) (p : px float) (c : channel),
        pixels rgb !! k = Some p ->
        exists q,
          pixels adjusted_rgb !! k = Some q
          /\ sample c q = Np.trunc (Np.clip (sample c p * 255) 0 255)
          /\ (0 <= sample c q <= 255)%Z.
Proof.
  intros Hr Hc Hb.
  rewrite (adjust_skin_tone_converted _ _ _ _ _ _ _ _ Hr Hc), Hb.
  eexists _, _. split; [done|]. split.
  { cbn [snd heap]. by rewrite lookup_fresh. }
  unfold Spec.to_uint8. cbn [height width pixels].
  repeat split; [by rewrite length_map|].
  intros k p c Hk. rewrite list_lookup_fmap, Hk. cbn.
  eexists. split; [done|].
  assert (Hq : forall x,
             Spec.quantize x = Np.trunc (Np.clip (x * 255) 0 255)
             /\ (0 <= Spec.quantize x <= 255)%Z).
  { intros x. unfold Spec.quantize, Np.astype_uint8.
    assert (Ht : (0 <= Np.trunc (Np.clip (x * 255) 0 255) <= 255)%Z).
    { destruct (PrimFloat.is_nan (x * 255)) eqn:Hx.
      - rewrite clip_nan by done. unfold Np.trunc.
        unfold PrimFloat.is_nan in Hx. rewrite FloatAxioms.eqb_spec in Hx.
        unfold SFeqb in Hx.
        destruct (Prim2SF (x * 255)) as [s|s| |s m e]; try lia.
        rewrite SFcompare_refl in Hx by done. discriminate Hx.
      - destruct (clip_in_range (x * 255) 0 255 Hx eq_refl) as [H1 H2].
        by apply trunc_range. }
    rewrite Z.mod_small by lia. split; [done|lia]. }
  unfold Spec.quantize_px. destruct c; cbn [sample]; apply Hq.
Qed.

End ToneFacts.

(** X1.  For every string, [get_color_recommendations] returns seven colours,
    each a [#] followed by six upper-case hexadecimal digits, and no colour
    twice. *)
Theorem palette_is_seven_hex_colors (skin_tone : string) :
  exists colors,
    get_color_recommendations skin_tone = inr colors
    /\ length colors = 7
    /\ Forall (fun c => is_hex_color c = true) colors
    /\ NoDup colors.
Proof.
  exists (Spec.palette_of skin_tone).
  split; [apply get_color_recommendations_palette|].
  unfold Spec.palette_of.
  repeat case_decide; (split; [reflexivity|]); (split;
    [repeat constructor | apply (bool_decide_unpack _); vm_compute; reflexivity]).
Qed.

(** ** Rendering *)

Lemma drawn_drawn a l1 l2 : drawn (drawn a l1) l2 = drawn a (l1 ++ l2).
Proof. unfold drawn. cbn. by rewrite app_assoc. Qed.

Lemma draws_emit c : quiet c -> draws (Page.emit c).
Proof. intros Hc a. exists [c]. split; [done|]. by constructor. Qed.

Lemma draws_ret : draws (Page.ret tt).
Proof.
  intros a. exists []. split; [|constructor].
  unfold Page.ret, drawn. destruct a; cbn. by rewrite app_nil_r.
Qed.

Lemma draws_then (m k : Act unit) : draws m -> draws k -> draws (m ;;; k).
Proof.
  intros Hm Hk a. destruct (Hm a) as (l1 & H1 & Q1).
  destruct (Hk (drawn a l1)) as (l2 & H2 & Q2).
  exists (l1 ++ l2). split; [|by apply Forall_app].
  unfold Page.bind. rewrite H1, H2. by rewrite drawn_drawn.
Qed.

Lemma draws_within element classes (body : Act unit) :
  draws body -> draws (within element classes body).
Proof.
  intros Hb a.
  destruct (Hb (drawn a [UiOpen element classes])) as (l & Hl & Q).
  exists ([UiOpen element classes] ++ l ++ [UiClose]).
  split; [|repeat (apply Forall_app; split); by repeat constructor].
  unfold within, Page.bind, Page.try_except, Page.emit, Page.ret.
  fold (drawn a [UiOpen element classes]). rewrite Hl.
  fold (drawn (drawn (drawn a [UiOpen element classes]) l) [UiClose]).
  by rewrite !drawn_drawn.
Qed.

Lemma draws_for_each {A} (l : list A) (body : A -> Act unit) :
  (forall x, draws (body x)) -> draws (for_each l body).
Proof.
  intros Hb. induction l as [|x l IH]; cbn; [apply draws_ret|].
  by apply draws_then.
Qed.

Lemma renders_emit c : renders (Page.emit c) [c].
Proof. by intros a. Qed.

Lemma renders_ret : renders (Page.ret tt) [].
Proof.
  intros a. unfold Page.ret, drawn. destruct a; cbn. by rewrite app_nil_r.
Qed.

Lemma renders_then (m k : Act unit) l1 l2 :
  renders m l1 -> renders k l2 -> renders (m ;;; k) (l1 ++ l2).
Proof.
  intros Hm Hk a. unfold Page.bind. by rewrite Hm, Hk, drawn_drawn.
Qed.

Lemma renders_within element classes (body : Act unit) l :
  renders body l ->
  renders (within element classes body)
          (UiOpen element classes :: l ++ [UiClose]).
Proof.
  intros Hb a.
  unfold within, Page.bind, Page.try_except, Page.emit, Page.ret.
  fold (drawn a [UiOpen element classes]). rewrite Hb.
  fold (drawn (drawn (drawn a [UiOpen element classes]) l) [UiClose]).
  by rewrite !drawn_drawn.
Qed.

Lemma renders_for_each {A} (l : list A) (body : A -> Act unit)
      (view : A -> list ui_call) :
  (forall x, renders (body x) (view x)) ->
  renders (for_each l body) (concat (map view l)).
Proof.
  intros Hb. induction l as [|x l IH]; cbn; [apply renders_ret|].
  by apply renders_then.
Qed.

Lemma session_of_ok a sid s :
  user_data a !! sid = Some s -> session_of sid a = (Returned s, a).
Proof. intros H. unfold session_of. by rewrite H. Qed.

Lemma session_of_missing a sid :
  user_data a !! sid = None -> session_of sid a = (Raised (key_error sid), a).
Proof. intros H. unfold session_of. by rewrite H. Qed.

Lemma set_item_ok a sid s f :
  user_data a !! sid = Some s ->
  set_item sid f a
  = (Returned tt,
     App (py a) (<[sid := f s]> (user_data a)) (storage_user a) (uploads a)
         (page a)).
Proof. intros H. unfold set_item. by rewrite H. Qed.

Lemma set_item_missing a sid f :
  user_data a !! sid = None -> set_item sid f a = (Raised (key_error sid), a).
Proof. intros H. unfold set_item. by rewrite H. Qed.

Section Display.

Variable rgb2lab : ndarray -> exn + grid float.
Variable lab2rgb : ndarray -> exn + grid float.
Variable np_mean : list float -> float.
Variable path_suffix : string -> string.
Variable named_temporary_file : string -> gmap string bytes -> exn + string.
Variable image_open_rgb : bytes -> exn + pil_image.
Variable resize_lanczos : pil_image -> Z * Z -> exn + pil_image.
Variable png_base64 : pil_image -> string.

Lemma display_image_draws a sid s :
  user_data a !! sid = Some s ->
  exists calls,
    display_image png_base64 sid a = (Returned tt, drawn a calls)
    /\ Forall quiet calls.
Proof.
  intros Hs. unfold display_image, Page.bind. rewrite (session_of_ok _ _ _ Hs).
  destruct (truthy_str (image_path s)); [|by apply draws_emit].
  destruct (adjusted_image s); [by apply draws_emit|].
  destruct (original_image s); by apply draws_emit.
Qed.

Lemma display_skin_tone_draws a sid s :
  user_data a !! sid = Some s ->
  exists calls,
    display_skin_tone sid a = (Returned tt, drawn a calls)
    /\ Forall quiet calls.
Proof.
  intros Hs. unfold display_skin_tone, Page.bind at 1.
  rewrite (session_of_ok _ _ _ Hs).
  match goal with
  | |- exists calls, ?m a = _ /\ _ => enough (draws m) as H by apply H
  end.
  destruct (truthy_str (skin_tone s)); [|by apply draws_emit].
  repeat first [ apply draws_within | by apply draws_emit | apply draws_then ].
  destruct (truthy_list (recommended_colors s)); [|apply draws_ret].
  repeat first [ apply draws_within | by apply draws_emit | apply draws_then ].
  apply draws_for_each. intros x.
  repeat first [ apply draws_within | by apply draws_emit | apply draws_then ].
Qed.

Lemma display_image_run a sid s :
  user_data a !! sid = Some s ->
  display_image png_base64 sid a
  = (Returned tt, drawn a [image_view png_base64 s]).
Proof.
  intros Hs. unfold display_image, Page.bind, image_view.
  rewrite (session_of_ok _ _ _ Hs).
  destruct (truthy_str (image_path s)); [|done].
  destruct (adjusted_image s); [done|].
  by destruct (original_image s).
Qed.

Lemma display_skin_tone_run a sid s :
  user_data a !! sid = Some s ->
  display_skin_tone sid a = (Returned tt, drawn a (tone_view s)).
Proof.
  intros Hs. unfold display_skin_tone, Page.bind at 1.
  rewrite (session_of_ok _ _ _ Hs). unfold tone_view.
  destruct (skin_tone s) as [[|c tone']|]; cbn [truthy_str default];
    [apply renders_emit| |apply renders_emit].
  revert a Hs. 
  match goal with
  | |- forall a, _ -> ?m a = (_, drawn a ?l) =>
      enough (renders m l) as H by (intros a _; apply H)
  end.
  change (?x :: ?y :: ?z :: ?u :: ?v :: nil)
    with ([x] ++ [y] ++ (z :: [u] ++ [v])).
  rewrite <- !app_assoc.
  repeat first
    [ apply renders_emit
    | apply renders_within
    | apply renders_then ].
  destruct (recommended_colors s) as [[|color colors']|];
    cbn [truthy_list default]; try apply renders_ret.
  change (?x :: ?y :: nil) with ([x] ++ [y]).
  rewrite <- !app_assoc.
  apply renders_then; [apply renders_emit|].
  change ([UiOpen "row" "flex-wrap gap-2 mt-2"] ++ ?l ++ [UiClose])
    with (UiOpen "row" "flex-wrap gap-2 mt-2" :: l ++ [UiClose]).
  apply renders_within. apply renders_for_each. intros x.
  unfold swatch.
  change (?o :: ?x1 :: ?x2 :: ?c :: nil) with (o :: ([x1] ++ [x2]) ++ [c]).
  apply renders_within. apply renders_then; apply renders_emit.
Qed.

Lemma refresh_run a sid s :
  user_data a !! sid = Some s ->
  (refresh_display_image png_base64 sid ;;; refresh_display_skin_tone sid) a
  = (Returned tt, drawn a (refresh_view png_base64 s)).
Proof.
  intros Hs. unfold refresh_display_image, refresh_display_skin_tone.
  unfold Page.bind, Page.emit. fold (drawn a [UiRefresh "display_image"]).
  rewrite (display_image_run _ _ s) by done.
  rewrite drawn_drawn.
  set (a1 := drawn a _).
  change (App (py a1) (user_data a1) (storage_user a1) (uploads a1)
              (page a1 ++ [UiRefresh "display_skin_tone"]))
    with (drawn a1 [UiRefresh "display_skin_tone"]).
  rewrite (display_skin_tone_run _ _ s) by done.
  subst a1. by rewrite !drawn_drawn.
Qed.

Lemma refresh_view_quiet s : Forall quiet (refresh_view png_base64 s).
Proof.
  unfold refresh_view, tone_view, image_view.
  repeat (apply Forall_cons; split);
    try (apply Forall_app; split);
    repeat match goal with
           | |- context [match ?x with _ => _ end] => destruct x
           end;
    repeat first
      [ done
      | apply Forall_nil
      | apply Forall_cons; split
      | apply Forall_app; split
      | apply Forall_concat, Forall_fmap, Forall_true; intros ?; cbn ].
Qed.

End Display.

(** ** The two handlers *)

Lemma tone_of_image_category rgb2lab np_mean img :
  tone_of_image rgb2lab np_mean img ∈ SKIN_TONE_CATEGORIES.
Proof.
  unfold tone_of_image. destruct (rgb2lab (U8 img)).
  - unfold SKIN_TONE_CATEGORIES. repeat constructor.
  - apply detected_in_categories.
Qed.

Section AdjustHandler.

Variable rgb2lab : ndarray -> exn + grid float.
Variable lab2rgb : ndarray -> exn + grid float.
Variable np_mean : list float -> float.
Variable path_suffix : string -> string.
Variable named_temporary_file : string -> gmap string bytes -> exn + string.
Variable image_open_rgb : bytes -> exn + pil_image.
Variable resize_lanczos : pil_image -> Z * Z -> exn + pil_image.
Variable png_base64 : pil_image -> string.

Lemma detect_on_array w r img :
  heap w !! r = Some (U8 img) ->
  exists w',
    detect_skin_tone rgb2lab np_mean r w
    = (Returned (tone_of_image rgb2lab np_mean img), w').
Proof.
  intros Hr. unfold tone_of_image.
  destruct (rgb2lab (U8 img)) as [e|lab] eqn:Hc.
  - rewrite (detect_skin_tone_conversion_error _ _ _ _ _ _ Hr Hc). by eexists.
  - rewrite (detect_skin_tone_ok _ _ _ _ _ _ Hr Hc). by eexists.
Qed.

Lemma adjust_on_array w r img tone :
  heap w !! r = Some (U8 img) ->
  exists out w',
    adjust_skin_tone rgb2lab lab2rgb np_mean r tone w = (Returned out, w')
    /\ heap w' !! out
       = Some (U8 (adjusted_image_of rgb2lab lab2rgb np_mean img tone)).
Proof.
  intros Hr. unfold adjusted_image_of.
  destruct (rgb2lab (U8 img)) as [e|lab] eqn:Hc.
  - rewrite (adjust_skin_tone_conversion_error _ _ _ _ _ _ _ _ Hr Hc).
    by eexists _, _.
  - rewrite (adjust_skin_tone_converted _ _ _ _ _ _ _ _ Hr Hc).
    destruct (lab2rgb _) as [e|rgb]; eexists _, _; (split; [done|]); cbn [heap].
    + by apply lookup_app_l_Some.
    + by rewrite lookup_fresh.
Qed.

Lemma adjust_image_skin_tone_run a sid s img new_tone :
  user_data a !! sid = Some s -> original_image s = Some img ->
  exists w',
    adjust_image_skin_tone rgb2lab lab2rgb np_mean png_base64 new_tone sid a
    = (Returned tt,
       App w' (<[sid := retoned rgb2lab lab2rgb np_mean s img new_tone]> (user_data a))
           (storage_user a) (uploads a)
           (page a ++ refresh_view png_base64 (retoned rgb2lab lab2rgb np_mean s img new_tone))).
Proof.
  intros Hs Himg.
  unfold adjust_image_skin_tone, Page.try_except, Page.bind at 1.
  rewrite (session_of_ok _ _ _ Hs), Himg.
  unfold Page.bind at 1, np_array, Page.in_py at 1, alloc.
  cbn [py user_data storage_user uploads page].
  set (w1 := World (heap (py a) ++ [U8 img]) (stdout (py a))).
  assert (Hr : heap w1 !! length (heap (py a)) = Some (U8 img))
    by (by apply list_lookup_middle).
  destruct (adjust_on_array w1 _ img new_tone Hr) as (out & w2 & Hrun & Hout).
  unfold Page.bind at 1, Page.in_py at 1.
  cbn [py user_data storage_user uploads page].
  rewrite Hrun.
  unfold Page.bind at 1, image_fromarray_uint8, Page.bind at 1,
    Page.in_py at 1.
  cbn [py user_data storage_user uploads page].
  rewrite (load_run _ _ _ Hout).
  unfold Page.bind at 1, Page.in_py at 1, alloc, Page.ret.
  cbn [py user_data storage_user uploads page astype_uint8].
  set (w3 := World _ _).
  unfold Page.bind at 1. rewrite (set_item_ok _ _ s) by done.
  cbn [py user_data storage_user uploads page].
  unfold Page.bind at 1.
  rewrite (set_item_ok _ _ (with_adjusted_image _ s))
    by (cbn; apply lookup_insert_eq).
  cbn [py user_data storage_user uploads page].
  rewrite insert_insert_eq.
  unfold Page.bind at 1.
  rewrite get_color_recommendations_palette. cbn [Page.lift Page.ret].
  unfold Page.bind at 1.
  rewrite (set_item_ok _ _ (with_skin_tone _ (with_adjusted_image _ s)))
    by (cbn; apply lookup_insert_eq).
  cbn [py user_data storage_user uploads page].
  rewrite insert_insert_eq.
  assert (Hre : with_recommended_colors (Some (Spec.palette_of new_tone))
                  (with_skin_tone (Some new_tone)
                     (with_adjusted_image
                        (Some (adjusted_image_of rgb2lab lab2rgb np_mean img
                                 new_tone)) s))
                = retoned rgb2lab lab2rgb np_mean s img new_tone).
  { unfold retoned, with_recommended_colors, with_skin_tone,
      with_adjusted_image. cbn. by rewrite Himg. }
  rewrite Hre.
  rewrite (refresh_run png_base64 _ sid (retoned rgb2lab lab2rgb np_mean s img new_tone))
    by (cbn; apply lookup_insert_eq).
  by exists w3.
Qed.

Lemma adjust_image_skin_tone_no_image a sid s new_tone :
  user_data a !! sid = Some s -> original_image s = None ->
  adjust_image_skin_tone rgb2lab lab2rgb np_mean png_base64 new_tone sid a
  = (Returned tt, a).
Proof.
  intros Hs Himg.
  unfold adjust_image_skin_tone, Page.try_except, Page.bind at 1.
  by rewrite (session_of_ok _ _ _ Hs), Himg.
Qed.

Lemma adjust_image_skin_tone_no_session a sid new_tone :
  user_data a !! sid = None ->
  adjust_image_skin_tone rgb2lab lab2rgb np_mean png_base64 new_tone sid a
  = (Returned tt,
     App (World (heap (py a))
            (stdout (py a)
             ++ ["Error adjusting skin tone: " +:+ key_error sid]))
         (user_data a) (storage_user a) (uploads a)
         (page a ++ [UiNotify ("Error adjusting skin tone: " +:+ key_error sid)
                              "negative"])).
Proof.
  intros Hs.
  unfold adjust_image_skin_tone, Page.try_except, Page.bind at 1.
  by rewrite (session_of_missing _ _ Hs).
Qed.

End AdjustHandler.

Section UploadHandler.

Variable rgb2lab : ndarray -> exn + grid float.
Variable lab2rgb : ndarray -> exn + grid float.
Variable np_mean : list float -> float.
Variable path_suffix : string -> string.
Variable named_temporary_file : string -> gmap string bytes -> exn + string.
Variable image_open_rgb : bytes -> exn + pil_image.
Variable resize_lanczos : pil_image -> Z * Z -> exn + pil_image.
Variable png_base64 : pil_image -> string.

Lemma handle_upload_no_tempfile f rest sid a e :
  named_temporary_file (path_suffix (name f)) (uploads a) = inl e ->
  handle_upload rgb2lab np_mean path_suffix named_temporary_file
    image_open_rgb resize_lanczos png_base64 (f :: rest) sid a
  = (Returned tt, reported a ("Upload failed: " +:+ e)).
Proof.
  intros Ht. unfold handle_upload, Page.try_except, Page.bind at 1.
  by rewrite Ht.
Qed.

Lemma handle_upload_rejected f rest sid a path e :
  named_temporary_file (path_suffix (name f)) (uploads a) = inr path ->
  (image_open_rgb (read f) = inl e
   \/ (exists img0,
          image_open_rgb (read f) = inr img0
          /\ fitted resize_lanczos img0 = inl e)
   \/ (exists img0 img,
          image_open_rgb (read f) = inr img0
          /\ fitted resize_lanczos img0 = inr img
          /\ user_data a !! sid = None /\ e = key_error sid)) ->
  handle_upload rgb2lab np_mean path_suffix named_temporary_file
    image_open_rgb resize_lanczos png_base64 (f :: rest) sid a
  = (Returned tt,
     reported (saved a path (read f)) ("Error processing image: " +:+ e)).
Proof.
  intros Ht Hcase. unfold handle_upload, Page.try_except, Page.bind at 1.
  rewrite Ht. unfold Page.bind at 1.
  cbn [py user_data storage_user uploads page].
  rewrite insert_insert_eq.
  unfold Page.bind at 1. cbn [uploads]. rewrite lookup_insert_eq.
  destruct Hcase as [Hd|[(img0 & Hd & Hf)|(img0 & img & Hd & Hf & Hs & ->)]];
    rewrite Hd; cbn [Page.lift Page.ret Page.raise].
  - reflexivity.
  - unfold fitted in Hf. cbv zeta in Hf. unfold Page.bind at 1.
    destruct (1000 <? _)%Z; [|discriminate Hf].
    rewrite Hf. reflexivity.
  - unfold fitted in Hf. cbv zeta in Hf. unfold Page.bind at 1.
    destruct (1000 <? _)%Z.
    + rewrite Hf. cbn [Page.lift Page.ret]. unfold Page.bind at 1.
      rewrite set_item_missing by done. reflexivity.
    + unfold Page.ret at 1. unfold Page.bind at 1.
      rewrite set_item_missing by done. reflexivity.
Qed.

Lemma handle_upload_ok f rest sid a path img0 img s :
  named_temporary_file (path_suffix (name f)) (uploads a) = inr path ->
  image_open_rgb (read f) = inr img0 ->
  fitted resize_lanczos img0 = inr img ->
  user_data a !! sid = Some s ->
  exists w',
    handle_upload rgb2lab np_mean path_suffix named_temporary_file
      image_open_rgb resize_lanczos png_base64 (f :: rest) sid a
    = (Returned tt,
       App w' (<[sid := uploaded rgb2lab np_mean path img]> (user_data a)) (storage_user a)
           (<[path := read f]> (uploads a))
           (page a ++ refresh_view png_base64 (uploaded rgb2lab np_mean path img))).
Proof.
  intros Ht Hd Hf Hs. unfold handle_upload, Page.try_except, Page.bind at 1.
  rewrite Ht. unfold Page.bind at 1.
  cbn [py user_data storage_user uploads page].
  rewrite insert_insert_eq.
  unfold Page.bind at 1. cbn [uploads]. rewrite lookup_insert_eq, Hd.
  cbn [Page.lift Page.ret].
  assert (Hfit :
    (if (1000 <? (img_size img0).1 `max` (img_size img0).2)%Z
     then
      Page.lift
        (resize_lanczos img0
           (Np.trunc
              (Np.float_of_Z (img_size img0).1 *
               (Np.float_of_Z 1000 /
                Np.float_of_Z ((img_size img0).1 `max` (img_size img0).2))),
            Np.trunc
              (Np.float_of_Z (img_size img0).2 *
               (Np.float_of_Z 1000 /
                Np.float_of_Z ((img_size img0).1 `max` (img_size img0).2)))))
     else Page.ret img0) = Page.ret img).
  { unfold fitted in Hf. cbv zeta in Hf.
    destruct (1000 <? _)%Z; [by rewrite Hf|]. by injection Hf as ->. }
  rewrite Hfit. unfold Page.bind at 1, Page.ret at 1.
  unfold Page.bind at 1. rewrite (set_item_ok _ _ s) by done.
  cbn [py user_data storage_user uploads page].
  unfold Page.bind at 1.
  rewrite (set_item_ok _ _ (with_image_path _ s))
    by (cbn; apply lookup_insert_eq).
  cbn [py user_data storage_user uploads page]. rewrite insert_insert_eq.
  unfold Page.bind at 1, np_array, Page.in_py at 1, alloc.
  cbn [py user_data storage_user uploads page].
  set (w1 := World (heap (py a) ++ [U8 img]) (stdout (py a))).
  assert (Hr : heap w1 !! length (heap (py a)) = Some (U8 img))
    by (by apply list_lookup_middle).
  destruct (detect_on_array rgb2lab np_mean w1 _ img Hr) as (w2 & Hrun).
  unfold Page.bind at 1, Page.in_py at 1.
  cbn [py user_data storage_user uploads page]. rewrite Hrun.
  unfold Page.bind at 1.
  rewrite (set_item_ok _ _ (with_original_image _ (with_image_path _ s)))
    by (cbn; apply lookup_insert_eq).
  cbn [py user_data storage_user uploads page]. rewrite insert_insert_eq.
  unfold Page.bind at 1.
  rewrite get_color_recommendations_palette. cbn [Page.lift Page.ret].
  unfold Page.bind at 1.
  rewrite (set_item_ok _ _ (with_skin_tone _ (with_original_image _
                                                (with_image_path _ s))))
    by (cbn; apply lookup_insert_eq).
  cbn [py user_data storage_user uploads page]. rewrite insert_insert_eq.
  unfold Page.bind at 1.
  rewrite (set_item_ok _ _ (with_recommended_colors _
             (with_skin_tone _ (with_original_image _
                                  (with_image_path _ s)))))
    by (cbn; apply lookup_insert_eq).
  cbn [py user_data storage_user uploads page]. rewrite insert_insert_eq.
  change (with_adjusted_image None _) with (uploaded rgb2lab np_mean path img).
  rewrite (refresh_run png_base64 _ sid (uploaded rgb2lab np_mean path img))
    by (cbn; apply lookup_insert_eq).
  by exists w2.
Qed.

End UploadHandler.

(** ** The page *)

Lemma draws_when_any cond m : draws m -> draws_when cond m.
Proof. intros H a _. apply H. Qed.

Lemma draws_when_then cond (m k : Act unit) :
  stable cond -> draws_when cond m -> draws_when cond k ->
  draws_when cond (m ;;; k).
Proof.
  intros Hst Hm Hk a Ha. destruct (Hm a Ha) as (l1 & H1 & Q1).
  destruct (Hk (drawn a l1) (Hst _ _ Ha)) as (l2 & H2 & Q2).
  exists (l1 ++ l2). split; [|by apply Forall_app].
  unfold Page.bind. rewrite H1, H2. by rewrite drawn_drawn.
Qed.

Lemma draws_when_within cond element classes (body : Act unit) :
  stable cond -> draws_when cond body ->
  draws_when cond (within element classes body).
Proof.
  intros Hst Hb a Ha.
  destruct (Hb (drawn a [UiOpen element classes]) (Hst _ _ Ha))
    as (l & Hl & Q).
  exists ([UiOpen element classes] ++ l ++ [UiClose]).
  split; [|repeat (apply Forall_app; split); by repeat constructor].
  unfold within, Page.bind, Page.try_except, Page.emit, Page.ret.
  fold (drawn a [UiOpen element classes]). rewrite Hl.
  fold (drawn (drawn (drawn a [UiOpen element classes]) l) [UiClose]).
  by rewrite !drawn_drawn.
Qed.

Lemma raises_then_l cond e (m k : Act unit) :
  raises_when cond e m -> raises_when cond e (m ;;; k).
Proof.
  intros Hm a Ha. destruct (Hm a Ha) as (l & Hl).
  exists l. unfold Page.bind. by rewrite Hl.
Qed.

Lemma raises_then_r cond e (m k : Act unit) :
  stable cond -> draws_when cond m -> raises_when cond e k ->
  raises_when cond e (m ;;; k).
Proof.
  intros Hst Hm Hk a Ha. destruct (Hm a Ha) as (l1 & H1 & _).
  destruct (Hk (drawn a l1) (Hst _ _ Ha)) as (l2 & H2).
  exists (l1 ++ l2). unfold Page.bind. rewrite H1, H2. by rewrite drawn_drawn.
Qed.

Lemma raises_within cond e element classes (body : Act unit) :
  stable cond -> raises_when cond e body ->
  raises_when cond e (within element classes body).
Proof.
  intros Hst Hb a Ha.
  destruct (Hb (drawn a [UiOpen element classes]) (Hst _ _ Ha)) as (l & Hl).
  exists ([UiOpen element classes] ++ l ++ [UiClose]).
  unfold within, Page.bind, Page.try_except, Page.emit, Page.raise.
  fold (drawn a [UiOpen element classes]). rewrite Hl.
  fold (drawn (drawn (drawn a [UiOpen element classes]) l) [UiClose]).
  by rewrite !drawn_drawn.
Qed.

Lemma stable_has_session sid s : stable (has_session sid s).
Proof. by intros a l H. Qed.
Lemma stable_lacks_session sid : stable (lacks_session sid).
Proof. by intros a l H. Qed.

Section IndexPage.

Variable rgb2lab : ndarray -> exn + grid float.
Variable lab2rgb : ndarray -> exn + grid float.
Variable np_mean : list float -> float.
Variable path_suffix : string -> string.
Variable named_temporary_file : string -> gmap string bytes -> exn + string.
Variable image_open_rgb : bytes -> exn + pil_image.
Variable resize_lanczos : pil_image -> Z * Z -> exn + pil_image.
Variable png_base64 : pil_image -> string.

Lemma display_image_raises sid :
  raises_when (lacks_session sid) (key_error sid)
              (display_image png_base64 sid).
Proof.
  intros a Ha. exists []. unfold display_image, Page.bind.
  rewrite (session_of_missing _ _ Ha). unfold drawn. destruct a; cbn.
  by rewrite app_nil_r.
Qed.

Ltac draw_step stab :=
  lazymatch goal with
  | |- draws_when _ (within _ _ _) => apply draws_when_within; [apply stab|]
  | |- draws_when _ (Page.emit _) => apply draws_when_any; by apply draws_emit
  | |- draws_when _ (Page.bind _ (fun _ => _)) =>
      apply draws_when_then; [apply stab| |]
  end.
Ltac draw := repeat draw_step stable_has_session.

Lemma index_body_draws sid s :
  draws_when (has_session sid s) (index_body png_base64 sid).
Proof.
  unfold index_body. draw.
  - intros a Ha. by apply (display_image_draws _ _ _ s).
  - intros a Ha. by apply (display_skin_tone_draws _ _ s).
Qed.

Ltac draw_lacking := repeat draw_step stable_lacks_session.

Lemma index_body_raises sid :
  raises_when (lacks_session sid) (key_error sid) (index_body png_base64 sid).
Proof.
  unfold index_body.
  apply raises_then_r; [apply stable_lacks_session|draw_lacking|].
  apply raises_then_r; [apply stable_lacks_session|draw_lacking|].
  apply raises_then_l.
  apply raises_within; [apply stable_lacks_session|].
  apply raises_then_l.
  apply raises_within; [apply stable_lacks_session|].
  apply raises_then_r; [apply stable_lacks_session|draw_lacking|].
  apply display_image_raises.
Qed.

End IndexPage.

Lemma palette_of_category tone :
  tone ∈ SKIN_TONE_CATEGORIES ->
  COLOR_RECOMMENDATIONS !! tone = Some (Spec.palette_of tone).
Proof.
  intros H. destruct (category_has_palette tone H) as (colors & H1 & H2).
  rewrite get_color_recommendations_palette in H2. by injection H2 as ->.
Qed.

Section Reachability.

Variable rgb2lab : ndarray -> exn + grid float.
Variable lab2rgb : ndarray -> exn + grid float.
Variable np_mean : list float -> float.
Variable path_suffix : string -> string.
Variable named_temporary_file : string -> gmap string bytes -> exn + string.
Variable image_open_rgb : bytes -> exn + pil_image.
Variable resize_lanczos : pil_image -> Z * Z -> exn + pil_image.
Variable png_base64 : pil_image -> string.

Abbreviation index' := (index png_base64).
Abbreviation handle_upload' :=
  (handle_upload rgb2lab np_mean path_suffix named_temporary_file
     image_open_rgb resize_lanczos png_base64).
Abbreviation adjust_image' :=
  (adjust_image_skin_tone rgb2lab lab2rgb np_mean png_base64).
Abbreviation reachable' :=
  (reachable rgb2lab lab2rgb np_mean path_suffix named_temporary_file
     image_open_rgb resize_lanczos png_base64).

Lemma index_unfold uuid4 a :
  index' uuid4 a
  = if truthy_str (storage_user a !! "session_id") then
      index_body png_base64 (default "" (storage_user a !! "session_id")) a
    else
      index_body png_base64 uuid4
        (App (py a)
             (<[uuid4 := Session None None None None None]> (user_data a))
             (<["session_id" := uuid4]> (storage_user a))
             (uploads a) (page a)).
Proof.
  unfold index, index_body. unfold Page.bind at 1.
  destruct (truthy_str (storage_user a !! "session_id")); reflexivity.
Qed.

Lemma index_new_visitor uuid4 a :
  truthy_str (storage_user a !! "session_id") = false ->
  exists calls,
    index' uuid4 a
    = (Returned tt,
       App (py a)
           (<[uuid4 := Session None None None None None]> (user_data a))
           (<["session_id" := uuid4]> (storage_user a))
           (uploads a) (page a ++ calls))
    /\ Forall quiet calls.
Proof.
  intros Ht. rewrite index_unfold, Ht.
  apply (index_body_draws png_base64 uuid4 (Session None None None None None)).
  unfold has_session. cbn. apply lookup_insert_eq.
Qed.

Lemma index_known_session uuid4 a sid s :
  storage_user a !! "session_id" = Some sid -> sid <> "" ->
  user_data a !! sid = Some s ->
  exists calls,
    index' uuid4 a = (Returned tt, drawn a calls) /\ Forall quiet calls.
Proof.
  intros Hst Hne Hs. rewrite index_unfold, Hst.
  destruct sid as [|c sid]; [done|]. cbn [truthy_str default].
  by apply (index_body_draws png_base64 _ s).
Qed.

Lemma index_lost_session uuid4 a sid :
  storage_user a !! "session_id" = Some sid -> sid <> "" ->
  user_data a !! sid = None ->
  exists calls, index' uuid4 a = (Raised (key_error sid), drawn a calls).
Proof.
  intros Hst Hne Hs. rewrite index_unfold, Hst.
  destruct sid as [|c sid]; [done|]. cbn [truthy_str default].
  by apply (index_body_raises png_base64).
Qed.

Lemma index_touches uuid4 a : touches a (snd (index' uuid4 a)).
Proof.
  destruct (truthy_str (storage_user a !! "session_id")) eqn:Ht.
  - destruct (storage_user a !! "session_id") as [sid|] eqn:Hst; [|done].
    assert (sid <> "") by (intros ->; done).
    destruct (user_data a !! sid) as [s|] eqn:Hs.
    + destruct (index_known_session uuid4 a sid s) as (calls & -> & _);
        try done. by left.
    + destruct (index_lost_session uuid4 a sid) as (calls & ->);
        try done. by left.
  - destruct (index_new_visitor uuid4 a Ht) as (calls & -> & _).
    right. eexists _, _. split; [done|]. intros _. reflexivity.
Qed.

Lemma uploaded_ok path img : session_ok (uploaded rgb2lab np_mean path img).
Proof.
  unfold session_ok, uploaded. cbn.
  pose proof (tone_of_image_category rgb2lab np_mean img) as Hin.
  repeat split; try done. by rewrite palette_of_category.
Qed.

Lemma retoned_ok s img tone :
  session_ok s -> original_image s = Some img ->
  tone ∈ SKIN_TONE_CATEGORIES ->
  session_ok (retoned rgb2lab lab2rgb np_mean s img tone).
Proof.
  intros Hok Himg Hin. unfold session_ok, retoned. cbn.
  repeat split; try done; [by rewrite palette_of_category|].
  unfold session_ok in Hok. destruct (skin_tone s).
  - by destruct Hok as (_ & _ & _ & ?).
  - subst s. discriminate Himg.
Qed.

Lemma handle_upload_touches files sid a :
  touches a (snd (handle_upload' files sid a)).
Proof.
  destruct files as [|f rest]; [by left|].
  destruct (named_temporary_file (path_suffix (name f)) (uploads a))
    as [e|path] eqn:Ht.
  { rewrite (handle_upload_no_tempfile _ _ _ _ _ _ _ _ _ _ _ _ Ht). by left. }
  destruct (image_open_rgb (read f)) as [e|img0] eqn:Hd.
  { erewrite handle_upload_rejected by (try done; by left). by left. }
  destruct (fitted resize_lanczos img0) as [e|img] eqn:Hf.
  { erewrite handle_upload_rejected by (try done; right; left; by eexists).
    by left. }
  destruct (user_data a !! sid) as [s|] eqn:Hs.
  - destruct (handle_upload_ok rgb2lab np_mean path_suffix
                named_temporary_file image_open_rgb resize_lanczos
                png_base64 f rest sid a path img0 img s) as (w' & ->);
      try done.
    right. eexists _, _. split; [done|]. intros _. apply uploaded_ok.
  - erewrite handle_upload_rejected
      by (try done; right; right; by eexists _, _).
    by left.
Qed.

Lemma adjust_image_skin_tone_touches tone sid a :
  tone ∈ SKIN_TONE_CATEGORIES ->
  touches a (snd (adjust_image' tone sid a)).
Proof.
  intros Hin. destruct (user_data a !! sid) as [s|] eqn:Hs.
  - destruct (original_image s) as [img|] eqn:Himg.
    + destruct (adjust_image_skin_tone_run rgb2lab lab2rgb np_mean png_base64
                  a sid s img tone Hs Himg) as (w' & ->).
      right. eexists _, _. split; [done|]. intros Hok.
      apply retoned_ok; auto.
    + rewrite (adjust_image_skin_tone_no_image _ _ _ _ _ _ _ _ Hs Himg).
      by left.
  - rewrite (adjust_image_skin_tone_no_session _ _ _ _ _ _ _ Hs). by left.
Qed.

Lemma touches_keeps_sessions_ok a a' :
  touches a a' ->
  (forall sid s, user_data a !! sid = Some s -> session_ok s) ->
  forall sid s, user_data a' !! sid = Some s -> session_ok s.
Proof.
  intros [->|(k & s' & -> & Hs')] Hall sid s; [apply Hall|].
  destruct (decide (k = sid)) as [->|Hne].
  - rewrite lookup_insert_eq. intros [= <-]. apply Hs'. apply Hall.
  - rewrite lookup_insert_ne by done. apply Hall.
Qed.

Lemma reachable_sessions_ok a :
  reachable' a -> forall sid s, user_data a !! sid = Some s -> session_ok s.
Proof.
  induction 1 as [w st up pg|a u st _ IH|a files sid _ IH|a tone sid _ IH Hin].
  - intros sid s. cbn. by rewrite lookup_empty.
  - eapply touches_keeps_sessions_ok; [apply index_touches|]. exact IH.
  - eapply touches_keeps_sessions_ok; [apply handle_upload_touches|]. exact IH.
  - eapply touches_keeps_sessions_ok;
      [by apply adjust_image_skin_tone_touches|]. exact IH.
Qed.

End Reachability.

(** ** Properties of the page *)

Lemma fitted_small resize (img : pil_image) :
  (Z.of_nat (width img) <= 1000)%Z -> (Z.of_nat (height img) <= 1000)%Z ->
  fitted resize img = inr img.
Proof.
  intros Hw Hh. unfold fitted, img_size. cbn [fst snd].
  assert ((1000 <? Z.of_nat (width img) `max` Z.of_nat (height img))%Z = false)
    as -> by (apply Z.ltb_ge; lia).
  done.
Qed.

Section PageClaims.

Variable rgb2lab : ndarray -> exn + grid float.
Variable lab2rgb : ndarray -> exn + grid float.
Variable np_mean : list float -> float.
Variable path_suffix : string -> string.
Variable named_temporary_file : string -> gmap string bytes -> exn + string.
Variable image_open_rgb : bytes -> exn + pil_image.
Variable resize_lanczos : pil_image -> Z * Z -> exn + pil_image.
Variable png_base64 : pil_image -> string.

Abbreviation index' := (index png_base64).
Abbreviation handle_upload' :=
  (handle_upload rgb2lab np_mean path_suffix named_temporary_file
     image_open_rgb resize_lanczos png_base64).
Abbreviation adjust_image' :=
  (adjust_image_skin_tone rgb2lab lab2rgb np_mean png_base64).

(** X8.  [adjust_image_skin_tone] for a session that does not exist reports
    the [KeyError] (a negative notification and a printed line) and changes
    nothing else; for a session without an uploaded image it does nothing
    at all. *)
Theorem adjust_image_skin_tone_edge_cases a sid new_tone :
  (user_data a !! sid = None ->
   adjust_image' new_tone sid a
   = (Returned tt,
      reported a ("Error adjusting skin tone: " +:+ key_error sid)))
  /\ (forall s,
        user_data a !! sid = Some s -> original_image s = None ->
        adjust_image' new_tone sid a = (Returned tt, a)).
Proof.
  split.
  - intros Hs. by rewrite (adjust_image_skin_tone_no_session _ _ _ _ _ _ _ Hs).
  - intros s Hs Himg.
    by rewrite (adjust_image_skin_tone_no_image _ _ _ _ _ _ _ _ Hs Himg).
Qed.

(** X9.  With an uploaded image, [adjust_image_skin_tone] returns without a
    notification and leaves the session with the same path and original
    image, the chosen tone as [skin_tone], the colours of that tone and the
    image adjusted from the original; the refreshed page shows the adjusted
    image and labels the chosen tone as the detected one. *)
Theorem adjust_image_skin_tone_updates_session a sid s img new_tone :
  user_data a !! sid = Some s -> original_image s = Some img ->
  exists w' colors,
    let adjusted := adjusted_image_of rgb2lab lab2rgb np_mean img new_tone in
    let s' := Session (image_path s) (Some img) (Some new_tone)
                      (Some colors) (Some adjusted) in
    get_color_recommendations new_tone = inr colors
    /\ adjust_image' new_tone sid a
       = (Returned tt,
          App w' (<[sid := s']> (user_data a)) (storage_user a) (uploads a)
              (page a ++ refresh_view png_base64 s'))
    /\ Forall quiet (refresh_view png_base64 s')
    /\ (truthy_str (image_path s) = true ->
        UiImage ("data:image/png;base64," +:+ png_base64 adjusted)
                "max-w-full max-h-80 object-contain"
        ∈ refresh_view png_base64 s')
    /\ (new_tone <> "" ->
        UiLabel ("Detected Skin Tone: " +:+ new_tone) "font-bold mt-2"
        ∈ refresh_view png_base64 s').
Proof.
  intros Hs Himg.
  destruct (adjust_image_skin_tone_run rgb2lab lab2rgb np_mean png_base64
              a sid s img new_tone Hs Himg) as (w' & Hrun).
  exists w', (Spec.palette_of new_tone). cbv zeta.
  split; [apply get_color_recommendations_palette|].
  split; [exact Hrun|]. split; [apply refresh_view_quiet|].
  unfold refresh_view, image_view, tone_view. cbn [image_path adjusted_image skin_tone].
  split.
  - intros ->. apply list_elem_of_further, list_elem_of_here.
  - intros Hne. destruct new_tone as [|c t]; [done|].
    do 3 apply list_elem_of_further. apply list_elem_of_here.
Qed.

(** X10.  Tone changes do not accumulate: choosing a tone after another one
    leaves the sessions as choosing it directly does, since every adjustment
    starts from the original image. *)
Theorem tone_changes_do_not_accumulate a sid s img tone1 tone2 :
  user_data a !! sid = Some s -> original_image s = Some img ->
  let adjust := adjust_image_skin_tone rgb2lab lab2rgb np_mean png_base64 in
  user_data (snd (adjust tone2 sid (snd (adjust tone1 sid a))))
  = user_data (snd (adjust tone2 sid a)).
Proof.
  intros Hs Himg adjust. subst adjust.
  destruct (adjust_image_skin_tone_run rgb2lab lab2rgb np_mean png_base64
              a sid s img tone1 Hs Himg) as (w1 & ->).
  destruct (adjust_image_skin_tone_run rgb2lab lab2rgb np_mean png_base64
              a sid s img tone2 Hs Himg) as (w2 & ->).
  cbn [snd].
  match goal with
  | |- context [adjust_image_skin_tone _ _ _ _ _ _ ?a1] =>
      destruct (adjust_image_skin_tone_run rgb2lab lab2rgb np_mean png_base64
                  a1 sid (retoned rgb2lab lab2rgb np_mean s img tone1) img
                  tone2) as (w3 & ->)
  end.
  - cbn. apply lookup_insert_eq.
  - reflexivity.
  - cbn [snd user_data]. rewrite insert_insert_eq. reflexivity.
Qed.







End PageClaims.

(** ** The further properties on concrete inputs *)

Lemma visited_session :
  user_data SamplePage.visited !! "u1" = Some (Session None None None None None).
Proof. vm_compute. reflexivity. Qed.

Lemma with_photo_session :
  user_data SamplePage.with_photo !! "u1"
  = Some (Session (Some "uploads/tmp0001.png") (Some SamplePage.two_pixels)
            (Some "Medium")
            (Some ["#FF6347"; "#6B8E23"; "#4169E1"; "#BA55D3"; "#20B2AA";
                   "#CD5C5C"; "#DAA520"])
            None).
Proof. vm_compute. reflexivity. Qed.

Lemma adjust_skin_tone_without_skin_witness :
  adjust_skin_tone Sample.blue_lab Sample.as_rgb Sample.seq_mean 0 "Fair"
    Sample.blue_world
  = adjust_skin_tone Sample.blue_lab Sample.as_rgb Sample.seq_mean 0 "Dark"
      Sample.blue_world.
Proof.
  refine (proj1 (adjust_skin_tone_without_skin Sample.blue_lab Sample.as_rgb
                   Sample.seq_mean Sample.blue_world 0 _ _ "Fair" "Dark"
                   eq_refl eq_refl _)).
  vm_compute. repeat constructor.
Defined.

Lemma service_prints_only_on_failure_witness :
  stdout (snd (detect_skin_tone Sample.failing Sample.seq_mean 0
                 Sample.fair_world))
  = ["Error in skin tone detection: the input array must have size 3 along channel_axis"].
Proof.
  exact (proj1 (service_prints_only_on_failure Sample.failing Sample.as_rgb
                  Sample.seq_mean Sample.fair_world 0 "Dark" _ eq_refl)).
Defined.

Lemma target_lightness_classifies_as_its_category_witness :
  fst (detect_skin_tone Sample.as_lab Sample.seq_mean 0 SamplePage.dark_world)
  = Returned "Dark".
Proof.
  eapply (target_lightness_classifies_as_its_category Sample.as_lab
            Sample.seq_mean "Dark" SamplePage.dark_world 0).
  - unfold SKIN_TONE_CATEGORIES. repeat constructor.
  - reflexivity.
  - reflexivity.
  - vm_compute. discriminate.
  - vm_compute. reflexivity.
Defined.

Lemma adjusted_lab_stays_in_range_witness :
  exists adjusted_lab,
    heap (snd (adjust_skin_tone Sample.as_lab Sample.as_rgb Sample.seq_mean 0
                 "Dark" Sample.two_pixel_world)) !! 2%nat
    = Some (F64 adjusted_lab)
    /\ length (pixels adjusted_lab) = 2%nat.
Proof.
  destruct (adjusted_lab_stays_in_range Sample.as_lab Sample.as_rgb
              Sample.seq_mean Sample.two_pixel_world 0 "Dark" _ _
              eq_refl eq_refl) as (adj & H & _ & _ & Hlen & _).
  exists adj. split; [exact H|exact Hlen].
Defined.

Lemma returned_raster_is_clipped_not_wrapped_witness :
  exists out adjusted_rgb,
    fst (adjust_skin_tone Sample.as_lab Sample.as_rgb Sample.seq_mean 0
           "Dark" Sample.two_pixel_world) = Returned out
    /\ heap (snd (adjust_skin_tone Sample.as_lab Sample.as_rgb
                    Sample.seq_mean 0 "Dark" Sample.two_pixel_world)) !! out
       = Some (U8 adjusted_rgb)
    /\ length (pixels adjusted_rgb) = 2%nat.
Proof.
  destruct (returned_raster_is_clipped_not_wrapped Sample.as_lab
              Sample.as_rgb Sample.seq_mean Sample.two_pixel_world 0 "Dark"
              _ _ _ eq_refl eq_refl eq_refl)
    as (out & res & H1 & H2 & _ & _ & Hlen & _).
  exists out, res. repeat split; [exact H1|exact H2|exact Hlen].
Defined.

Abbreviation sample_adjust :=
  (adjust_image_skin_tone Sample.as_lab Sample.as_rgb Sample.seq_mean SamplePage.png).
Abbreviation sample_upload :=
  (handle_upload Sample.as_lab Sample.seq_mean SamplePage.suffix SamplePage.temp_name SamplePage.decode
     SamplePage.resize SamplePage.png).
Abbreviation sample_reachable :=
  (reachable Sample.as_lab Sample.as_rgb Sample.seq_mean SamplePage.suffix SamplePage.temp_name
     SamplePage.decode SamplePage.resize SamplePage.png).

Lemma adjust_image_skin_tone_edge_cases_witness :
  sample_adjust "Dark" "u1" SamplePage.visited = (Returned tt, SamplePage.visited)
  /\ fst (sample_adjust "Dark" "u0" SamplePage.visited) = Returned tt.
Proof.
  destruct (adjust_image_skin_tone_edge_cases Sample.as_lab Sample.as_rgb
              Sample.seq_mean SamplePage.png SamplePage.visited) with (sid := "u1")
    (new_tone := "Dark") as [_ H1].
  destruct (adjust_image_skin_tone_edge_cases Sample.as_lab Sample.as_rgb
              Sample.seq_mean SamplePage.png SamplePage.visited) with (sid := "u0")
    (new_tone := "Dark") as [H0 _].
  split.
  - apply (H1 _ visited_session). reflexivity.
  - rewrite H0; [reflexivity|]. vm_compute. reflexivity.
Defined.

Lemma adjust_image_skin_tone_updates_session_witness :
  user_data (snd (sample_adjust "Dark" "u1" SamplePage.with_photo)) !! "u1"
  = Some (Session (Some "uploads/tmp0001.png") (Some SamplePage.two_pixels)
            (Some "Dark")
            (Some ["#FFD700"; "#7CFC00"; "#FF1493"; "#00BFFF"; "#F0E68C";
                   "#ADFF2F"; "#FF69B4"])
            (Some (Grid 1 2 [(45, 14, 26); (0, 0, 255)]%Z))).
Proof.
  destruct (adjust_image_skin_tone_updates_session Sample.as_lab
              Sample.as_rgb Sample.seq_mean SamplePage.png SamplePage.with_photo "u1" _ SamplePage.two_pixels
              "Dark" with_photo_session eq_refl)
    as (w' & colors & Hc & Hrun & _).
  cbv zeta in Hrun. rewrite Hrun. cbn [snd user_data].
  rewrite lookup_insert_eq.
  vm_compute in Hc. injection Hc as <-.
  vm_compute. reflexivity.
Defined.

Lemma tone_changes_do_not_accumulate_witness :
  user_data (snd (sample_adjust "Dark" "u1"
                    (snd (sample_adjust "Fair" "u1" SamplePage.with_photo))))
  = user_data (snd (sample_adjust "Dark" "u1" SamplePage.with_photo)).
Proof.
  exact (tone_changes_do_not_accumulate Sample.as_lab Sample.as_rgb
           Sample.seq_mean SamplePage.png SamplePage.with_photo "u1" _ SamplePage.two_pixels "Fair" "Dark"
           with_photo_session eq_refl).
Defined.



Lemma with_photo_reachable : sample_reachable SamplePage.with_photo.
Proof.
  apply reach_upload.
  apply (reach_index Sample.as_lab Sample.as_rgb Sample.seq_mean SamplePage.suffix
           SamplePage.temp_name SamplePage.decode SamplePage.resize SamplePage.png SamplePage.started "u1" ∅).
  apply reach_start.
Qed.




